(** * The abacus trainer: bead state, answer validation and statistics

    A shallow embedding of the host component [App] of the abacus simulator
    (the React function component of the source) and of the data model of
    [types.ts].  The component's [useState] cells become the fields of one
    record, its callbacks become functions on that record, and the
    validation [useEffect] becomes a function that runs after an event
    whenever one of its dependencies changed.

    JavaScript numbers that hold bead counts, board totals and counters are
    integers and are modelled by [Z]; the derived accuracy, the only
    fractional quantity, is modelled by exact rationals [Q] (the rounding of
    IEEE doubles is not part of the model). *)

From Stdlib Require Import ZArith QArith Qminmax Qround Lqa String Ascii DecimalString Lia.
From stdpp Require Import base option list strings.
From Stdlib Require DecimalPos DecimalZ.

Local Open Scope string_scope.
Local Open Scope list_scope.
Local Open Scope Z_scope.

(** ** Data model ([types.ts]) *)

(** [RodState] *)
Record RodState := mkRod {
  id : Z;
  value : Z;
  activeHeavenCount : Z;
  activeEarthCount : Z
}.

Inductive AppMode := Free | Training | Exam.

Record Formula := mkFormula {
  action : string;
  koujue : string;
  description : string
}.

Inductive ProblemType := ADD | SUB | MUL | DIV | MIXED.

(** [Challenge]; its [id], a string, is [ch_id] here, since [id] names the
    field of [RodState]. *)
Record Challenge := mkChallenge {
  ch_id : string;
  type : ProblemType;
  question : string;
  targetValue : Z;
  steps : list Z;
  currentStepIndex : Z;
  ruleDescription : option string
}.

Record AccuracyPoint := mkPoint {
  time : string;
  accuracy : Q
}.

Record UserStats := mkStats {
  totalOperations : Z;
  correctAnswers : Z;
  accuracyHistory : list AccuracyPoint
}.

Record AppSettings := mkSettings {
  soundEnabled : bool;
  voiceEnabled : bool;
  showHints : bool;
  mentalMode : bool
}.

(** [keyof AppSettings] *)
Inductive SettingKey := SoundEnabled | VoiceEnabled | ShowHints | MentalMode.

(** [Partial<RodState>]: every field may be absent. *)
Record PartialRodState := mkPartial {
  p_id : option Z;
  p_value : option Z;
  p_activeHeavenCount : option Z;
  p_activeEarthCount : option Z
}.

(** What a call of [generateChallenge] returns, as far as [startChallenge]
    reads it. *)
Record GeneratedChallenge := mkGenerated {
  g_question : string;
  g_targetValue : Z;
  g_steps : list Z;
  g_ruleDescription : option string
}.

#[global] Instance AppMode_eq_dec : EqDecision AppMode.
Proof. solve_decision. Defined.

#[global] Instance ProblemType_eq_dec : EqDecision ProblemType.
Proof. solve_decision. Defined.

(** ** The state of the component *)

(** The [useState] cells of [App] that the callbacks below read or write
    ([isReferenceOpen] only drives a modal and is left out). *)
Record AppState := mkApp {
  rods : list RodState;
  mode : AppMode;
  lastFormula : option Formula;
  activeRodId : option Z;
  settings : AppSettings;
  challenge : option Challenge;
  feedbackMsg : string;
  stats : UserStats
}.

Definition set_rods (v : list RodState) (s : AppState) : AppState :=
  mkApp v (mode s) (lastFormula s) (activeRodId s) (settings s)
        (challenge s) (feedbackMsg s) (stats s).
Definition set_mode (v : AppMode) (s : AppState) : AppState :=
  mkApp (rods s) v (lastFormula s) (activeRodId s) (settings s)
        (challenge s) (feedbackMsg s) (stats s).
Definition set_lastFormula (v : option Formula) (s : AppState) : AppState :=
  mkApp (rods s) (mode s) v (activeRodId s) (settings s)
        (challenge s) (feedbackMsg s) (stats s).
Definition set_activeRodId (v : option Z) (s : AppState) : AppState :=
  mkApp (rods s) (mode s) (lastFormula s) v (settings s)
        (challenge s) (feedbackMsg s) (stats s).
Definition set_settings (v : AppSettings) (s : AppState) : AppState :=
  mkApp (rods s) (mode s) (lastFormula s) (activeRodId s) v
        (challenge s) (feedbackMsg s) (stats s).
Definition set_challenge (v : option Challenge) (s : AppState) : AppState :=
  mkApp (rods s) (mode s) (lastFormula s) (activeRodId s) (settings s)
        v (feedbackMsg s) (stats s).
Definition set_feedbackMsg (v : string) (s : AppState) : AppState :=
  mkApp (rods s) (mode s) (lastFormula s) (activeRodId s) (settings s)
        (challenge s) v (stats s).
Definition set_stats (v : UserStats) (s : AppState) : AppState :=
  mkApp (rods s) (mode s) (lastFormula s) (activeRodId s) (settings s)
        (challenge s) (feedbackMsg s) v.

(** ** Feedback messages

    The validator reports its verdict through [feedbackMsg]; the four
    literals of the source stand for Correct, TooHigh, InProgress and Idle. *)
Definition msgCorrect : string := "回答正确! 🎉".
Definition msgTooHigh : string := "数值偏大...".
Definition msgInProgress : string := "计算中...".
Definition msgIdle : string := "".

(** ** Numbers as strings *)

(** [n.toString()] for an integer [n]: decimal digits, ["-"] in front of a
    negative number, ["0"] for zero. *)
Definition toString (n : Z) : string := NilZero.string_of_int (Z.to_int n).

(** [s.replace(/0+$/, '')]: the longest run of ['0'] at the end of [s] is
    removed. *)
Fixpoint replace_trailing_zeros (s : string) : string :=
  match s with
  | EmptyString => EmptyString
  | String c r =>
      match replace_trailing_zeros r with
      | EmptyString => if Ascii.eqb c "0" then EmptyString else String c EmptyString
      | r' => String c r'
      end
  end.

(** A run of [k] zero digits, and whether a string ends with a zero digit:
    the vocabulary in which the replacement above is specified. *)
Fixpoint zeros (k : nat) : string :=
  match k with
  | O => EmptyString
  | S k' => String "0" (zeros k')
  end.

Fixpoint endsWithZero (s : string) : bool :=
  match s with
  | EmptyString => false
  | String c EmptyString => Ascii.eqb c "0"
  | String _ r => endsWithZero r
  end.

(** [a.slice(-n)]: the last [n] elements, all of [a] when it is shorter. *)
Definition slice_last {A} (n : nat) (a : list A) : list A :=
  drop (length a - n) a.

(** [{ ...oldRod, ...newState }] *)
Definition spread (oldRod : RodState) (newState : PartialRodState) : RodState :=
  mkRod (default (id oldRod) (p_id newState))
        (default (value oldRod) (p_value newState))
        (default (activeHeavenCount oldRod) (p_activeHeavenCount newState))
        (default (activeEarthCount oldRod) (p_activeEarthCount newState)).

(** [a[i]] for a JavaScript number [i] that holds an integer: [undefined]
    (here [None]) below zero and past the end. *)
Definition index {A} (a : list A) (i : Z) : option A :=
  if i <? 0 then None else a !! Z.to_nat i.

(** The dependency array of the validation effect, as one render sees it. *)
Record EffectDeps := mkDeps {
  dep_currentTotal : Z;
  dep_mode : AppMode;
  dep_challenge : option nat;
  dep_speak : bool
}.

#[global] Instance EffectDeps_eq_dec : EqDecision EffectDeps.
Proof. solve_decision. Defined.

(** ** The imported services

    [App] imports four functions from [services/AbacusLogic]; their code is
    not part of the component and they are taken as an interface.
    [createInitialRods] is called without arguments; [generateChallenge]
    draws random numbers of its own, for which [seed] stands. *)
Class AbacusLogic := {
  createInitialRods : list RodState;
  calculateTotalValue : list RodState -> Z;
  identifyFormula : Z -> Z -> option Formula;
  generateChallenge : ProblemType -> Z -> GeneratedChallenge
}.

Section App.
Context `{AbacusLogic}.

(** The [useState] initialisers, with empty [localStorage]. *)
Definition initialSettings : AppSettings := mkSettings true true true false.

Definition initialStats : UserStats :=
  mkStats 0 0 [mkPoint "开始" 0%Q].

Definition initialState : AppState :=
  mkApp createInitialRods Free None None initialSettings None "" initialStats.

(** [const currentTotal = calculateTotalValue(rods)] *)
Definition currentTotal (s : AppState) : Z := calculateTotalValue (rods s).

(** *** [handleRodChange]

    [speak] only drives the speech synthesiser and writes no state.  When
    [id] is no index of the board, [oldRod] is [undefined] and reading
    [oldRod.activeHeavenCount] throws a [TypeError]: the result is [None]. *)
Definition handleRodChange (id : Z) (newState : PartialRodState)
    (s : AppState) : option AppState :=
  match index (rods s) id with
  | None => None
  | Some oldRod =>
      let updatedRod := spread oldRod newState in
      let newRods := <[Z.to_nat id := updatedRod]> (rods s) in
      let oldVal := activeHeavenCount oldRod * 5 + activeEarthCount oldRod in
      let newVal := activeHeavenCount updatedRod * 5 + activeEarthCount updatedRod in
      let formula := identifyFormula oldVal newVal in
      let s1 := set_activeRodId (Some id) s in
      let s2 := set_rods newRods s1 in
      let s3 := match formula with
                | Some f => set_lastFormula (Some f) s2
                | None => s2
                end in
      Some (set_stats (mkStats (totalOperations (stats s3) + 1)
                               (correctAnswers (stats s3))
                               (accuracyHistory (stats s3))) s3)
  end.

(** *** [handleReset] *)
Definition handleReset (s : AppState) : AppState :=
  set_activeRodId None
    (set_feedbackMsg ""
      (set_lastFormula None
        (set_rods createInitialRods s))).

(** *** [clearStats]; [confirmed] is the answer of [window.confirm]. *)
Definition clearStats (confirmed : bool) (s : AppState) : AppState :=
  if confirmed then set_stats (mkStats 0 0 [mkPoint "重置" 0%Q]) s else s.

(** *** [toggleSetting] *)
Definition toggleSetting (key : SettingKey) (s : AppState) : AppState :=
  let p := settings s in
  set_settings
    match key with
    | SoundEnabled => mkSettings (negb (soundEnabled p)) (voiceEnabled p) (showHints p) (mentalMode p)
    | VoiceEnabled => mkSettings (soundEnabled p) (negb (voiceEnabled p)) (showHints p) (mentalMode p)
    | ShowHints => mkSettings (soundEnabled p) (voiceEnabled p) (negb (showHints p)) (mentalMode p)
    | MentalMode => mkSettings (soundEnabled p) (voiceEnabled p) (showHints p) (negb (mentalMode p))
    end s.

(** *** [startChallenge]

    [random] is the value of [Math.random()], [now] that of [Date.now()].
    [types[...]] is [undefined] when the index is none of 0..3, which
    [Math.random()], a number in [0,1), never causes; the model stops with
    [None] there. *)
Definition types : list ProblemType := [ADD; SUB; MUL; DIV].

Definition startChallenge (random : Q) (now seed : Z) (s : AppState) : option AppState :=
  match index types (Qfloor (random * inject_Z (Z.of_nat (length types)))) with
  | None => None
  | Some rType =>
      let newChallenge := generateChallenge rType seed in
      let s1 := set_challenge (Some (mkChallenge (toString now) rType
                                        (g_question newChallenge)
                                        (g_targetValue newChallenge)
                                        (g_steps newChallenge)
                                        0
                                        (g_ruleDescription newChallenge))) s in
      Some (set_mode Training (handleReset s1))
  end.

(** *** The validation effect

    The body of the [useEffect] with dependencies
    [[currentTotal, mode, challenge, speak]]; [now] is the string that
    [new Date().toLocaleTimeString(...)] returns. *)
Definition isMulDiv (t : ProblemType) : bool :=
  match t with MUL | DIV => true | _ => false end.

Definition isAddSub (t : ProblemType) : bool :=
  match t with ADD | SUB => true | _ => false end.

(** The flag [isCorrect] that the effect computes before it branches. *)
Definition isCorrect (ch : Challenge) (currentTotal : Z) : bool :=
  if isMulDiv (type ch) then
    let boardValString := replace_trailing_zeros (toString currentTotal) in
    let targetValString := replace_trailing_zeros (toString (targetValue ch)) in
    (0 <? currentTotal) && String.eqb boardValString targetValString
  else
    currentTotal =? targetValue ch.

Definition validationEffect (now : string) (s : AppState) : AppState :=
  match mode s, challenge s with
  | Training, Some ch =>
      if isCorrect ch (currentTotal s) then
        let prev := stats s in
        let newCorrect := correctAnswers prev + 1 in
        let newHistory :=
          slice_last 10
            (accuracyHistory prev ++
             [mkPoint now
                (Qmin 100 ((inject_Z newCorrect / (inject_Z newCorrect + 0.5)) * 100))]) in
        set_stats (mkStats (totalOperations prev) newCorrect newHistory)
          (set_feedbackMsg msgCorrect s)
      else if isAddSub (type ch) then
        if targetValue ch <? currentTotal s then set_feedbackMsg msgTooHigh s
        else if 0 <? currentTotal s then set_feedbackMsg msgInProgress s
        else set_feedbackMsg msgIdle s
      else
        if 0 <? currentTotal s then set_feedbackMsg msgInProgress s
        else set_feedbackMsg msgIdle s
  | _, _ => s
  end.

(** Whether a run of the effect on [s] is a Correct event. *)
Definition judgedCorrect (s : AppState) : bool :=
  match mode s, challenge s with
  | Training, Some ch => isCorrect ch (currentTotal s)
  | _, _ => false
  end.

(** *** Events, renders and effects

    One user action calls one callback; React batches its state updates,
    renders once and then runs the validation effect if a dependency differs
    from the one of the previous render.  [challenge] is compared by
    reference: [challengeRef] counts the objects [startChallenge] has made.
    [speak] is a [useCallback] on [settings.voiceEnabled] and changes exactly
    when that setting does. *)
Inductive Event :=
  | RodChange (id : Z) (newState : PartialRodState)
  | Reset
  | ClearStats (confirmed : bool)
  | ToggleSetting (key : SettingKey)
  | StartChallenge (random : Q) (now seed : Z)
  | SetMode (m : AppMode).

Record Component := mkComponent {
  state : AppState;
  challengeRef : nat;
  renderedDeps : option EffectDeps
}.

Definition handle (e : Event) (s : AppState) : option AppState :=
  match e with
  | RodChange id newState => handleRodChange id newState s
  | Reset => Some (handleReset s)
  | ClearStats confirmed => Some (clearStats confirmed s)
  | ToggleSetting key => Some (toggleSetting key s)
  | StartChallenge random now seed => startChallenge random now seed s
  | SetMode m => Some (set_mode m s)
  end.

Definition depsOf (c : Component) : EffectDeps :=
  mkDeps (currentTotal (state c)) (mode (state c))
         (match challenge (state c) with
          | Some _ => Some (challengeRef c)
          | None => None
          end)
         (voiceEnabled (settings (state c))).

Definition render (now : string) (c : Component) : Component :=
  if decide (renderedDeps c = Some (depsOf c)) then c
  else mkComponent (validationEffect now (state c)) (challengeRef c) (Some (depsOf c)).

Definition afterHandler (e : Event) (c : Component) : option Component :=
  match handle e (state c) with
  | None => None
  | Some s' =>
      Some (mkComponent s'
              (match e with
               | StartChallenge _ _ _ => S (challengeRef c)
               | _ => challengeRef c
               end)
              (renderedDeps c))
  end.

Definition dispatch (now : string) (e : Event) (c : Component) : option Component :=
  match afterHandler e c with
  | None => None
  | Some c' => Some (render now c')
  end.

(** The first render of the component. *)
Definition mount (now : string) : Component :=
  render now (mkComponent initialState 0 None).

Fixpoint run (es : list (string * Event)) (c : Component) : option Component :=
  match es with
  | [] => Some c
  | (now, e) :: es' =>
      match dispatch now e c with
      | None => None
      | Some c' => run es' c'
      end
  end.

End App.

(** ** A concrete board

    The services of [AbacusLogic] below make the component executable on
    concrete inputs. *)

(** Modelled from the spec: [createInitialRods] of services/AbacusLogic,
    "all rods zeroed, fixed length determined by the host UI"; the rod at
    index [i] has [id] equal to [i]. *)
Definition zeroRods (count : nat) : list RodState :=
  (fun i => mkRod (Z.of_nat i) 0 0 0) <$> seq 0 count.

(** Modelled from the spec: [calculateTotalValue] of services/AbacusLogic,
    "Total value = Σ(rod.value × 10^weight(rod.id))" where the leftmost rod
    has the highest weight, [10^(N-1-id)]. *)
Definition boardValue (rs : list RodState) : Z :=
  foldr (fun r acc => value r * 10 ^ (Z.of_nat (length rs) - 1 - id r) + acc) 0 rs.

(** Modelled from the spec: [generateChallenge] of services/AbacusLogic,
    reduced to its "guaranteed-exact canned pair" for every kind of problem;
    MUL and DIV carry a positioning rule, the others none. *)
Definition cannedChallenge (t : ProblemType) (seed : Z) : GeneratedChallenge :=
  match t with
  | ADD => mkGenerated "7 + 8" 15 [7; 8] None
  | SUB => mkGenerated "9 - 4" 5 [9; 4] None
  | MUL => mkGenerated "2 * 5" 10 [2; 5] (Some "forward multiplication")
  | DIV => mkGenerated "84 / 2" 42 [84; 2] (Some "forward division")
  | MIXED => mkGenerated "7 + 8 - 5" 10 [7; 8; 5] None
  end.

(** Modelled from the spec: a board of five rods.  The table of
    [identifyFormula] is not given by the spec; this instance recognises no
    technique, and nothing below depends on that choice. *)
Definition fiveRodLogic : AbacusLogic :=
  Build_AbacusLogic (zeroRods 5) boardValue (fun _ _ => None) cannedChallenge.

(** Requests of the bead handler used in the examples. *)
Definition setBeads (h e : Z) : PartialRodState :=
  mkPartial None (Some (h * 5 + e)) (Some h) (Some e).

(** A training session: the challenge [ch] is active and the rods hold the
    heaven and earth counts [beads], left to right. *)
Definition training (ch : Challenge) (beads : list (Z * Z)) : AppState :=
  mkApp (imap (fun i b => mkRod (Z.of_nat i) (b.1 * 5 + b.2) b.1 b.2) beads)
        Training None None initialSettings (Some ch) "" initialStats.

Definition mul42 : Challenge := mkChallenge "1" MUL "6 * 7" 42 [6; 7] 0 None.
Definition add15 : Challenge := mkChallenge "2" ADD "7 + 8" 15 [7; 8] 0 None.
Definition mul600 : Challenge := mkChallenge "3" MUL "20 * 30" 600 [20; 30] 0 None.
Definition mul0 : Challenge := mkChallenge "4" MUL "0 * 7" 0 [0; 7] 0 None.

(** A session on the five-rod board: a MUL challenge with target 10 is
    started, then the units rod is set to two heaven beads, which makes the
    total 10. *)
Definition solveMul10 : list (string * Event) :=
  [("10:00", StartChallenge 0.6 1700000000000 0);
   ("10:01", RodChange 4 (setBeads 2 0))].

(** ** Properties of the specification that the component does not have *)

(** Bounds rejection: a request for a heaven count outside [0,2] or an earth
    count outside [0,5] is refused, and the board stays as it is. *)
Definition outOfRange (newState : PartialRodState) : Prop :=
  (exists h, p_activeHeavenCount newState = Some h /\ ~ 0 <= h <= 2)
  \/ (exists e, p_activeEarthCount newState = Some e /\ ~ 0 <= e <= 5).

Definition bounds_rejection (L : AbacusLogic) : Prop :=
  forall (s : AppState) (id : Z) (newState : PartialRodState) (oldRod : RodState),
    index (rods s) id = Some oldRod ->
    outOfRange newState ->
    handleRodChange id newState s = None.



(** ** Invariant of the statistics

    The counter of correct answers is not negative and every point of the
    history lies in the interval [0, 100). *)
Definition inRange (p : AccuracyPoint) : Prop :=
  (0 <= accuracy p)%Q /\ (accuracy p < 100)%Q.

Definition stats_ok (st : UserStats) : Prop :=
  0 <= correctAnswers st /\ Forall inRange (accuracyHistory st).

(** The accuracy that the effect computes from the new count. *)
Definition accuracyOf (newCorrect : Z) : Q :=
  Qmin 100 ((inject_Z newCorrect / (inject_Z newCorrect + 0.5)) * 100).

(** ** Speech

    [speak] and the ref [lastSpeakTime].  [spoken] records the calls of
    [speechSynthesis.speak] with the time read from [Date.now()];
    [synthesis] tells whether ['speechSynthesis' in window] holds, and
    [voice] is the [settings.voiceEnabled] that the callback closed over. *)
Record Speaker := mkSpeaker {
  lastSpeakTime : Z;
  spoken : list (Z * string)
}.

Definition initialSpeaker : Speaker := mkSpeaker 0 [].

Definition speak (voice synthesis : bool) (text : string) (now : Z)
    (sp : Speaker) : Speaker :=
  if negb voice then sp
  else if now - lastSpeakTime sp <? 500 then sp
  else if synthesis then mkSpeaker now (spoken sp ++ [(now, text)])
  else sp.

(** One call of [speak], with what it reads from its environment. *)
Record SpeakCall := mkCall {
  call_voice : bool;
  call_synthesis : bool;
  call_text : string;
  call_now : Z
}.

Definition speakCall (k : SpeakCall) (sp : Speaker) : Speaker :=
  speak (call_voice k) (call_synthesis k) (call_text k) (call_now k) sp.

Definition speakAll (ks : list SpeakCall) (sp : Speaker) : Speaker :=
  foldl (fun acc k => speakCall k acc) sp ks.

(** Whether a call can be heard at all. *)
Definition audible (k : SpeakCall) : bool := call_voice k && call_synthesis k.

(** Successive utterances are at least 500 ms apart. *)
Fixpoint spaced (l : list (Z * string)) : Prop :=
  match l with
  | [] => True
  | u :: l' =>
      match l' with
      | [] => True
      | u' :: _ => 500 <= u'.1 - u.1
      end /\ spaced l'
  end.

(** The log is spaced and [lastSpeakTime] is the time of its last entry. *)
Definition speakerOk (sp : Speaker) : Prop :=
  spaced (spoken sp)
  /\ forall u, last (spoken sp) = Some u -> u.1 = lastSpeakTime sp.

(** ** What the dashboard shows *)

(** [s.includes(sub)] *)
Fixpoint includes (s sub : string) : bool :=
  String.prefix sub s ||
  match s with
  | EmptyString => false
  | String _ r => includes r sub
  end.

(** The panel of the challenge is rendered when
    [mode === AppMode.Training && challenge]. *)
Definition showsChallenge (s : AppState) : bool :=
  match mode s, challenge s with
  | Training, Some _ => true
  | _, _ => false
  end.

(** [feedbackMsg.includes('正确')] chooses the green badge. *)
Definition badgeIsGreen (s : AppState) : bool := includes (feedbackMsg s) "正确".

(** [feedbackMsg || '请拨珠计算'] *)
Definition badgeText (s : AppState) : string :=
  if String.eqb (feedbackMsg s) "" then "请拨珠计算" else feedbackMsg s.

(** ** Vocabulary for sessions *)

Definition isRodChange (e : Event) : bool :=
  match e with RodChange _ _ => true | _ => false end.


Definition isConfirmedClear (e : Event) : bool :=
  match e with ClearStats true => true | _ => false end.

(** The events of a session, without their time stamps. *)
Definition events (es : list (string * Event)) : list Event := snd <$> es.

(** [{ ...p1, ...p2 }] for two requests. *)
Definition mergePartial (p1 p2 : PartialRodState) : PartialRodState :=
  mkPartial (from_option Some (p_id p1) (p_id p2))
            (from_option Some (p_value p1) (p_value p2))
            (from_option Some (p_activeHeavenCount p1) (p_activeHeavenCount p2))
            (from_option Some (p_activeEarthCount p1) (p_activeEarthCount p2)).

Definition emptyPartial : PartialRodState := mkPartial None None None None.

(** A component whose last render has seen its present dependencies: the
    state in which React leaves it after an event. *)
Definition settled `{AbacusLogic} (c : Component) : Prop :=
  renderedDeps c = Some (depsOf c).



(** ** Basic facts *)

Lemma messages_distinct : NoDup [msgCorrect; msgTooHigh; msgInProgress; msgIdle].
Proof. apply (bool_decide_unpack _). vm_compute. reflexivity. Qed.

Lemma msgTooHigh_not_correct : msgTooHigh <> msgCorrect.
Proof. intros E. vm_compute in E. discriminate E. Qed.

Lemma msgInProgress_not_correct : msgInProgress <> msgCorrect.
Proof. intros E. vm_compute in E. discriminate E. Qed.

Lemma msgIdle_not_correct : msgIdle <> msgCorrect.
Proof. intros E. vm_compute in E. discriminate E. Qed.

Lemma msgInProgress_not_tooHigh : msgInProgress <> msgTooHigh.
Proof. intros E. vm_compute in E. discriminate E. Qed.

Lemma msgIdle_not_tooHigh : msgIdle <> msgTooHigh.
Proof. intros E. vm_compute in E. discriminate E. Qed.

Lemma msgIdle_not_inProgress : msgIdle <> msgInProgress.
Proof. intros E. vm_compute in E. discriminate E. Qed.

(** The replacement removes a run of zeros from the end, and all of it. *)
Lemma replace_trailing_zeros_spec (s : string) :
  exists k,
    s = (replace_trailing_zeros s ++ zeros k)%string
    /\ endsWithZero (replace_trailing_zeros s) = false.
Proof.
  induction s as [|c r (k & Hr & He)]; [exists 0%nat; split; reflexivity|].
  cbn [replace_trailing_zeros].
  destruct (replace_trailing_zeros r) as [|a r'] eqn:Hs.
  - destruct (Ascii.eqb c "0") eqn:Hc.
    + apply Ascii.eqb_eq in Hc. subst c. exists (S k).
      split; [rewrite Hr at 1; reflexivity | reflexivity].
    + exists k. split; [rewrite Hr at 1; reflexivity | exact Hc].
  - exists k. split; [rewrite Hr at 1; reflexivity | exact He].
Qed.

Example replace_trailing_zeros_examples :
  replace_trailing_zeros "42000" = "42"
  /\ replace_trailing_zeros "600" = "6"
  /\ replace_trailing_zeros "6050" = "605"
  /\ replace_trailing_zeros "0" = ""
  /\ toString 60000 = "60000" /\ toString 0 = "0" /\ toString (-15) = "-15".
Proof. repeat split; reflexivity. Qed.

Create HintDb msgs.
#[local] Hint Resolve msgTooHigh_not_correct msgInProgress_not_correct
  msgIdle_not_correct msgInProgress_not_tooHigh msgIdle_not_tooHigh
  msgIdle_not_inProgress : msgs.

(** Closes a goal that follows from two different messages being equal,
    or from arithmetic on the board total. *)
Ltac msg_clash :=
  match goal with
  | E : ?a = ?b |- _ =>
      first [ exfalso; eauto using eq_sym with msgs; fail
            | exfalso; apply eq_sym in E; eauto with msgs; fail ]
  end.

Section Properties.
Context `{AbacusLogic}.

(** The message that a run of the effect leaves, by cases. *)
Lemma feedbackMsg_validationEffect now s ch :
  mode s = Training -> challenge s = Some ch ->
  feedbackMsg (validationEffect now s) =
    if isCorrect ch (currentTotal s) then msgCorrect
    else if isAddSub (type ch) then
      if targetValue ch <? currentTotal s then msgTooHigh
      else if 0 <? currentTotal s then msgInProgress else msgIdle
    else if 0 <? currentTotal s then msgInProgress else msgIdle.
Proof.
  intros Hm Hc. unfold validationEffect. rewrite Hm, Hc.
  destruct (isCorrect ch (currentTotal s)); [reflexivity|].
  destruct (isAddSub (type ch)).
  - destruct (targetValue ch <? currentTotal s); [reflexivity|].
    destruct (0 <? currentTotal s); reflexivity.
  - destruct (0 <? currentTotal s); reflexivity.
Qed.



Lemma isCorrect_add_sub ch v :
  type ch = ADD \/ type ch = SUB ->
  isCorrect ch v = true <-> v = targetValue ch.
Proof.
  intros Ht. unfold isCorrect.
  replace (isMulDiv (type ch)) with false by (destruct Ht as [-> | ->]; reflexivity).
  apply Z.eqb_eq.
Qed.


(** C2. For an ADD or SUB challenge with target [t] and every board total
    [v] the verdict is Correct iff [v = t], TooHigh iff [v > t], InProgress
    iff [0 < v < t], and Idle iff [v = 0] and the answer is not correct
    (board totals and targets of generated problems are not negative).  In
    particular the totals 0, 7 and 15 against the target 15 give Idle,
    InProgress and Correct. *)
Theorem add_sub_verdict now s ch v t :
  mode s = Training -> challenge s = Some ch ->
  type ch = ADD \/ type ch = SUB ->
  currentTotal s = v -> targetValue ch = t ->
  let verdict := feedbackMsg (validationEffect now s) in
  (verdict = msgCorrect <-> v = t)
  /\ (verdict = msgTooHigh <-> v > t)
  /\ (verdict = msgInProgress <-> 0 < v < t)
  /\ (0 <= v -> 0 <= t -> (verdict = msgIdle <-> v = 0 /\ v <> t))
  /\ (t = 15 ->
      (v = 0 -> verdict = msgIdle)
      /\ (v = 7 -> verdict = msgInProgress)
      /\ (v = 15 -> verdict = msgCorrect)).
Proof.
  intros Hm Hc Ht Hv Htv verdict.
  assert (Hcases : verdict =
            if v =? t then msgCorrect
            else if t <? v then msgTooHigh
            else if 0 <? v then msgInProgress else msgIdle).
  { unfold verdict. rewrite (feedbackMsg_validationEffect now s ch Hm Hc).
    unfold isCorrect. rewrite Hv, Htv.
    destruct Ht as [-> | ->]; reflexivity. }
  clearbody verdict. rewrite Hcases. clear Hcases.
  destruct (Z.eqb_spec v t) as [E | E];
    [| destruct (Z.ltb_spec t v) as [L | L];
       [| destruct (Z.ltb_spec 0 v) as [P | P]]].
  all: repeat split; intros; try lia; try msg_clash; try reflexivity.
Qed.

(** *** The bead handler *)

Lemma index_Some {A} (a : list A) (i : Z) (x : A) :
  index a i = Some x <-> 0 <= i /\ a !! Z.to_nat i = Some x.
Proof.
  unfold index. destruct (Z.ltb_spec i 0); split.
  - discriminate.
  - intros [? _]. lia.
  - auto.
  - intros [_ ?]. assumption.
Qed.

Lemma index_insert_eq {A} (a : list A) (i : Z) (x y : A) :
  index a i = Some x -> index (<[Z.to_nat i := y]> a) i = Some y.
Proof.
  rewrite !index_Some. intros [Hi Hx]. split; [assumption|].
  apply list_lookup_insert_eq. eapply lookup_lt_Some, Hx.
Qed.

Lemma index_insert_ne {A} (a : list A) (i j : Z) (y : A) :
  0 <= i -> j <> i -> index (<[Z.to_nat i := y]> a) j = index a j.
Proof.
  intros Hi Hne. unfold index. destruct (Z.ltb_spec j 0); [reflexivity|].
  apply list_lookup_insert_ne. lia.
Qed.

(** What [handleRodChange] returns on an index of the board. *)
Lemma handleRodChange_Some id newState s oldRod :
  index (rods s) id = Some oldRod ->
  exists s',
    handleRodChange id newState s = Some s'
    /\ rods s' = <[Z.to_nat id := spread oldRod newState]> (rods s)
    /\ stats s' = mkStats (totalOperations (stats s) + 1)
                          (correctAnswers (stats s)) (accuracyHistory (stats s))
    /\ mode s' = mode s /\ challenge s' = challenge s
    /\ settings s' = settings s /\ feedbackMsg s' = feedbackMsg s.
Proof.
  intros Hi. unfold handleRodChange. rewrite Hi. cbv zeta.
  eexists. split; [reflexivity|].
  destruct (identifyFormula _ _); repeat split; reflexivity.
Qed.

(** The call site of [identifyFormula]: it receives the values of the old
    and of the updated rod, computed from their bead counts, and a formula
    it returns replaces [lastFormula]. *)
Lemma handleRodChange_lastFormula id newState s oldRod :
  index (rods s) id = Some oldRod ->
  lastFormula <$> handleRodChange id newState s =
  Some match identifyFormula
               (activeHeavenCount oldRod * 5 + activeEarthCount oldRod)
               (activeHeavenCount (spread oldRod newState) * 5
                + activeEarthCount (spread oldRod newState)) with
       | Some f => Some f
       | None => lastFormula s
       end.
Proof.
  intros Hi. unfold handleRodChange. rewrite Hi. cbv zeta.
  destruct (identifyFormula _ _); reflexivity.
Qed.

Lemma handleRodChange_inv id newState s s' :
  handleRodChange id newState s = Some s' ->
  exists oldRod, index (rods s) id = Some oldRod.
Proof.
  unfold handleRodChange. destruct (index (rods s) id) as [r|]; [eauto | discriminate].
Qed.

(** The effect writes [feedbackMsg] and [stats] only, and of [stats] never
    [totalOperations]. *)
Lemma validationEffect_frame now s :
  rods (validationEffect now s) = rods s
  /\ mode (validationEffect now s) = mode s
  /\ challenge (validationEffect now s) = challenge s
  /\ settings (validationEffect now s) = settings s
  /\ totalOperations (stats (validationEffect now s)) = totalOperations (stats s).
Proof.
  unfold validationEffect.
  destruct (mode s) eqn:Hm; try (repeat split; congruence).
  destruct (challenge s) as [ch|] eqn:Hc; try (repeat split; congruence).
  destruct (isCorrect ch (currentTotal s)); [repeat split; assumption|].
  destruct (isAddSub (type ch)), (targetValue ch <? currentTotal s),
    (0 <? currentTotal s); repeat split; assumption.
Qed.

Lemma render_frame now c :
  rods (state (render now c)) = rods (state c)
  /\ mode (state (render now c)) = mode (state c)
  /\ challenge (state (render now c)) = challenge (state c)
  /\ settings (state (render now c)) = settings (state c)
  /\ totalOperations (stats (state (render now c))) = totalOperations (stats (state c)).
Proof.
  unfold render. destruct (decide _); [repeat split; reflexivity|].
  apply validationEffect_frame.
Qed.

(** C3, as the component has it.  [handleRodChange] checks no bounds and has
    no out-of-range error: for every index of the board and every request,
    whatever the requested heaven and earth counts, the mutation succeeds
    and the rod at that index becomes the old rod overwritten with the
    requested fields. *)
Theorem rod_change_unchecked id newState s oldRod :
  index (rods s) id = Some oldRod ->
  exists s',
    handleRodChange id newState s = Some s'
    /\ index (rods s') id = Some (spread oldRod newState).
Proof.
  intros Hi.
  destruct (handleRodChange_Some id newState s oldRod Hi) as (s' & Hs & Hr & _).
  exists s'. split; [exact Hs|].
  rewrite Hr. eapply index_insert_eq, Hi.
Qed.

(** C7. Every rod mutation adds exactly one to [totalOperations], whatever
    the mode, whether or not a formula is recognised, and whatever the
    validation effect that follows decides. *)
Theorem totalOperations_incremented now id newState c :
  is_Some (index (rods (state c)) id) ->
  exists c',
    dispatch now (RodChange id newState) c = Some c'
    /\ totalOperations (stats (state c')) = totalOperations (stats (state c)) + 1.
Proof.
  intros [oldRod Hi].
  destruct (handleRodChange_Some id newState (state c) oldRod Hi)
    as (s' & Hs & _ & Hst & _).
  unfold dispatch, afterHandler. cbn [handle]. rewrite Hs.
  eexists. split; [reflexivity|].
  destruct (render_frame now (mkComponent s' (challengeRef c) (renderedDeps c)))
    as (_ & _ & _ & _ & Ht).
  rewrite Ht. cbn [state]. rewrite Hst. reflexivity.
Qed.

(** C8. A mutation of the rod at index [id] changes that rod only: every
    rod at another index is, field for field, what it was before, and the
    board keeps its length. *)
Theorem rod_change_frame now id newState c :
  is_Some (index (rods (state c)) id) ->
  exists c',
    dispatch now (RodChange id newState) c = Some c'
    /\ length (rods (state c')) = length (rods (state c))
    /\ forall j, j <> id -> index (rods (state c')) j = index (rods (state c)) j.
Proof.
  intros [oldRod Hi].
  destruct (handleRodChange_Some id newState (state c) oldRod Hi)
    as (s' & Hs & Hr & _).
  unfold dispatch, afterHandler. cbn [handle]. rewrite Hs.
  eexists. split; [reflexivity|].
  destruct (render_frame now (mkComponent s' (challengeRef c) (renderedDeps c)))
    as (Hrods & _).
  rewrite Hrods. cbn [state]. rewrite Hr. split.
  - apply length_insert.
  - intros j Hj. apply index_insert_ne; [|exact Hj].
    apply index_Some in Hi. tauto.
Qed.

(** *** Starting a challenge *)

Lemma types_index i t :
  index types i = Some t -> t ∈ [ADD; SUB; MUL; DIV] /\ t <> MIXED.
Proof.
  intros Hi. apply index_Some in Hi as [_ Hi].
  assert (Hin : t ∈ types) by (eapply list_elem_of_lookup_2, Hi).
  split; [exact Hin|].
  intros ->. unfold types in Hin.
  rewrite !elem_of_cons, elem_of_nil in Hin. intuition discriminate.
Qed.

Lemma random_index (random : Q) :
  (0 <= random)%Q -> (random < 1)%Q ->
  0 <= Qfloor (random * inject_Z (Z.of_nat (length types))) < 4.
Proof.
  intros H0 H1. change (inject_Z (Z.of_nat (length types))) with 4%Q. split.
  - change 0 with (Qfloor 0). apply Qfloor_resp_le. lra.
  - rewrite Zlt_Qlt. eapply Qle_lt_trans; [apply Qfloor_le|].
    change (inject_Z 4) with 4%Q. lra.
Qed.

(** C9. Every challenge that [startChallenge] creates has one of the types
    ADD, SUB, MUL, DIV, never MIXED, and [startChallenge] does create one for
    every value that [Math.random()] can return. *)
Theorem startChallenge_type random now seed s :
  (forall s', startChallenge random now seed s = Some s' ->
     exists ch, challenge s' = Some ch
       /\ type ch ∈ [ADD; SUB; MUL; DIV] /\ type ch <> MIXED)
  /\ ((0 <= random)%Q -> (random < 1)%Q ->
      is_Some (startChallenge random now seed s)).
Proof.
  unfold startChallenge. split.
  - intros s'.
    destruct (index types _) as [rType|] eqn:Hi; [|discriminate].
    intros [= <-]. eexists. split; [reflexivity|].
    cbn [type]. eapply types_index, Hi.
  - intros H0 H1. pose proof (random_index random H0 H1) as Hr.
    set (k := Qfloor (random * inject_Z (Z.of_nat (length types)))) in *.
    destruct (index types k) as [rType|] eqn:Hi; [eexists; reflexivity|].
    exfalso. unfold index in Hi.
    destruct (Z.ltb_spec k 0); [lia|].
    apply lookup_ge_None in Hi. change (length types) with 4%nat in Hi. lia.
Qed.

(** *** Statistics written by the effect *)

Lemma slice_last_length {A} (n : nat) (a : list A) :
  (length (slice_last n a) <= n)%nat.
Proof. unfold slice_last. rewrite length_drop. lia. Qed.

Lemma slice_last_snoc {A} (n : nat) (a : list A) (x : A) :
  slice_last (S n) (a ++ [x]) = slice_last n a ++ [x].
Proof.
  unfold slice_last. rewrite length_app, drop_app. cbn [length].
  replace (length a + 1 - S n)%nat with (length a - n)%nat by lia.
  replace (length a - n - length a)%nat with 0%nat by lia.
  reflexivity.
Qed.


(** The statistics after a run of the effect: a Correct event writes the new
    count and the new history, every other run leaves them alone. *)
Lemma stats_validationEffect now s :
  stats (validationEffect now s) =
    if judgedCorrect s then
      mkStats (totalOperations (stats s)) (correctAnswers (stats s) + 1)
        (slice_last 10
           (accuracyHistory (stats s) ++
            [mkPoint now (accuracyOf (correctAnswers (stats s) + 1))]))
    else stats s.
Proof.
  unfold validationEffect, judgedCorrect.
  destruct (mode s); try reflexivity.
  destruct (challenge s) as [ch|]; try reflexivity.
  destruct (isCorrect ch (currentTotal s)); [reflexivity|].
  destruct (isAddSub (type ch)), (targetValue ch <? currentTotal s),
    (0 <? currentTotal s); reflexivity.
Qed.

(** C6. A Correct event appends exactly one point to the accuracy history,
    with the value [min(100, correct/(correct+0.5)*100)] computed from the
    count it has just incremented, and keeps the last 10 points of the
    result. *)
Theorem correct_event_history now s :
  judgedCorrect s = true ->
  let prev := stats s in
  let after := stats (validationEffect now s) in
  let newCorrect := correctAnswers prev + 1 in
  let point :=
    mkPoint now
      (Qmin 100 ((inject_Z newCorrect / (inject_Z newCorrect + 0.5)) * 100)) in
  correctAnswers after = newCorrect
  /\ accuracyHistory after = slice_last 10 (accuracyHistory prev ++ [point])
  /\ accuracyHistory after = slice_last 9 (accuracyHistory prev) ++ [point]
  /\ (length (accuracyHistory after) <= 10)%nat.
Proof.
  intros Hj prev after newCorrect point.
  assert (Hafter : after = mkStats (totalOperations prev) newCorrect
                     (slice_last 10 (accuracyHistory prev ++ [point]))).
  { unfold after. rewrite stats_validationEffect, Hj. reflexivity. }
  rewrite Hafter. cbn [correctAnswers accuracyHistory].
  split; [reflexivity|]. split; [reflexivity|]. split.
  - apply slice_last_snoc.
  - apply slice_last_length.
Qed.

(** *** The range of the accuracy *)


(** *** The invariant along a session *)



(** The callbacks leave [correctAnswers] and the history alone, except for a
    confirmed [clearStats], which resets them. *)
Lemma handle_stats e s s' :
  handle e s = Some s' ->
  (e <> ClearStats true ->
   correctAnswers (stats s') = correctAnswers (stats s)
   /\ accuracyHistory (stats s') = accuracyHistory (stats s))
  /\ (stats_ok (stats s) -> stats_ok (stats s')).
Proof.
  destruct e as [id newState | | confirmed | key | random now seed | m]; cbn [handle].
  - intros Hs. destruct (handleRodChange_inv _ _ _ _ Hs) as [oldRod Hi].
    destruct (handleRodChange_Some id newState s oldRod Hi) as (s'' & Hs' & _ & Hst & _).
    rewrite Hs in Hs'. injection Hs' as <-. rewrite Hst.
    split; [intros _; split; reflexivity|]. intros [? ?]. split; assumption.
  - intros [= <-]. split; [intros _; split; reflexivity | tauto].
  - intros [= <-]. destruct confirmed; cbn.
    + split; [congruence|]. intros _. split; [cbn; lia|].
      repeat constructor; cbn; lra.
    + split; [intros _; split; reflexivity | tauto].
  - intros [= <-]. split; [intros _; split; reflexivity | tauto].
  - unfold startChallenge. destruct (index types _); [|discriminate].
    intros [= <-]. split; [intros _; split; reflexivity | tauto].
  - intros [= <-]. split; [intros _; split; reflexivity | tauto].
Qed.





(** *** The counter of correct answers *)


End Properties.

(** ** Decimal strings and trailing zeros *)




















Section Coverage.
Context `{AbacusLogic}.

(** *** The validator on the other branches *)


(** X2. For a challenge that is neither ADD nor SUB the verdict is never
    TooHigh: a total that is not Correct is InProgress when it is positive
    and Idle otherwise, also when it exceeds the target.  A MIXED challenge
    is Correct on exact equality only. *)
Theorem other_types_verdict now s ch :
  mode s = Training -> challenge s = Some ch ->
  isAddSub (type ch) = false ->
  let verdict := feedbackMsg (validationEffect now s) in
  verdict <> msgTooHigh
  /\ (verdict = msgInProgress <-> verdict <> msgCorrect /\ 0 < currentTotal s)
  /\ (verdict = msgIdle <-> verdict <> msgCorrect /\ currentTotal s <= 0)
  /\ (type ch = MIXED -> (verdict = msgCorrect <-> currentTotal s = targetValue ch)).
Proof.
  intros Hm Hc Ht verdict.
  assert (Hcases : verdict =
            if isCorrect ch (currentTotal s) then msgCorrect
            else if 0 <? currentTotal s then msgInProgress else msgIdle).
  { unfold verdict. rewrite (feedbackMsg_validationEffect now s ch Hm Hc), Ht.
    reflexivity. }
  assert (Hmixed : type ch = MIXED ->
            isCorrect ch (currentTotal s) = (currentTotal s =? targetValue ch)).
  { intros E. unfold isCorrect. rewrite E. reflexivity. }
  clearbody verdict. rewrite Hcases. clear Hcases.
  destruct (isCorrect ch (currentTotal s)) eqn:Hcor;
    [| destruct (Z.ltb_spec 0 (currentTotal s)) as [P | P]].
  - split; [auto with msgs|]. split; [split; [intros E; msg_clash | tauto]|].
    split; [split; [intros E; msg_clash | tauto]|].
    intros Hx. pose proof (Hmixed Hx) as Hb. symmetry in Hb.
    apply Z.eqb_eq in Hb. tauto.
  - split; [auto with msgs|]. split; [split; [auto with msgs | reflexivity]|].
    split; [split; [intros E; msg_clash | lia]|].
    intros Hx. pose proof (Hmixed Hx) as Hb. symmetry in Hb.
    apply Z.eqb_neq in Hb. split; [intros E; msg_clash | contradiction].
  - split; [auto with msgs|]. split; [split; [intros E; msg_clash | lia]|].
    split; [split; [auto with msgs | reflexivity]|].
    intros Hx. pose proof (Hmixed Hx) as Hb. symmetry in Hb.
    apply Z.eqb_neq in Hb. split; [intros E; msg_clash | contradiction].
Qed.

(** *** Renders *)

Lemma depsOf_render now c : depsOf (render now c) = depsOf c.
Proof.
  unfold render. destruct (decide _); [reflexivity|].
  destruct (validationEffect_frame now (state c)) as (Hr & Hm & Hc & Hs & _).
  unfold depsOf, currentTotal. cbn [state challengeRef].
  rewrite Hr, Hm, Hc, Hs. reflexivity.
Qed.

Lemma render_settled now c : settled (render now c).
Proof.
  unfold settled. rewrite depsOf_render.
  unfold render. destruct (decide _) as [E|_]; [exact E | reflexivity].
Qed.

Lemma render_of_settled now c : settled c -> render now c = c.
Proof.
  unfold settled, render. intros E.
  destruct (decide _) as [_|N]; [reflexivity | contradiction].
Qed.

Lemma dispatch_render now e c c' :
  dispatch now e c = Some c' -> exists c1, afterHandler e c = Some c1 /\ c' = render now c1.
Proof.
  unfold dispatch. destruct (afterHandler e c) as [c1|]; [|discriminate].
  intros [= <-]. eauto.
Qed.

(** X4. The validation effect never triggers itself: after every event the
    component has seen its own dependencies, and rendering it again, at any
    later time, changes nothing. *)
Theorem dispatch_settled now e c c' :
  dispatch now e c = Some c' ->
  settled c' /\ forall now', render now' c' = c'.
Proof.
  intros Hd. destruct (dispatch_render _ _ _ _ Hd) as (c1 & _ & ->).
  split; [apply render_settled|].
  intros now'. apply render_of_settled, render_settled.
Qed.

(** *** Sessions without a challenge *)





(** *** The bead handler, continued *)

(** X5. A bead mutation fails exactly when its index is no index of the
    board, that is below zero or not below the number of rods; the failure
    is the [TypeError] of reading a field of [undefined]. *)
Theorem rod_change_fails_iff now id newState c :
  (handleRodChange id newState (state c) = None <->
   id < 0 \/ Z.of_nat (length (rods (state c))) <= id)
  /\ (dispatch now (RodChange id newState) c = None <->
      id < 0 \/ Z.of_nat (length (rods (state c))) <= id).
Proof.
  assert (Hidx : index (rods (state c)) id = None <->
                 id < 0 \/ Z.of_nat (length (rods (state c))) <= id).
  { unfold index. destruct (Z.ltb_spec id 0) as [L | L]; [tauto|].
    rewrite lookup_ge_None. lia. }
  assert (Hh : handleRodChange id newState (state c) = None <->
               index (rods (state c)) id = None).
  { unfold handleRodChange. destruct (index (rods (state c)) id); [|tauto].
    split; discriminate. }
  split; [rewrite Hh; exact Hidx|].
  rewrite <- Hidx, <- Hh. unfold dispatch, afterHandler. cbn [handle].
  destruct (handleRodChange id newState (state c)); [split; discriminate | tauto].
Qed.

Lemma spread_merge oldRod p1 p2 :
  spread (spread oldRod p1) p2 = spread oldRod (mergePartial p1 p2).
Proof.
  destruct p1 as [[?|] [?|] [?|] [?|]], p2 as [[?|] [?|] [?|] [?|]]; reflexivity.
Qed.

Lemma index_length {A} (a : list A) (i : Z) (x : A) :
  index a i = Some x -> 0 <= i /\ (Z.to_nat i < length a)%nat.
Proof.
  intros Hi. apply index_Some in Hi as [H0 Hl]. split; [exact H0|].
  eapply lookup_lt_Some, Hl.
Qed.

Lemma handleRodChange_activeRodId id newState s s' :
  handleRodChange id newState s = Some s' -> activeRodId s' = Some id.
Proof.
  unfold handleRodChange. destruct (index (rods s) id); [|discriminate].
  cbv zeta. intros [= <-]. destruct (identifyFormula _ _); reflexivity.
Qed.

(** X6. Mutations of two different rods commute on the board and on the
    statistics: in either order the same rods result and two operations are
    counted; only the rod marked active is the one mutated last. *)
Theorem rod_changes_commute id1 id2 p1 p2 s :
  is_Some (index (rods s) id1) -> is_Some (index (rods s) id2) -> id1 <> id2 ->
  exists s12 s21,
    handleRodChange id1 p1 s ≫= handleRodChange id2 p2 = Some s12
    /\ handleRodChange id2 p2 s ≫= handleRodChange id1 p1 = Some s21
    /\ rods s12 = rods s21
    /\ stats s12 = stats s21
    /\ totalOperations (stats s12) = totalOperations (stats s) + 2
    /\ activeRodId s12 = Some id2 /\ activeRodId s21 = Some id1.
Proof.
  intros [r1 H1] [r2 H2] Hne.
  destruct (index_length _ _ _ H1) as [Hp1 Hl1].
  destruct (index_length _ _ _ H2) as [Hp2 Hl2].
  destruct (handleRodChange_Some id1 p1 s r1 H1) as (sa & Ha & Hra & Hsa & _).
  destruct (handleRodChange_Some id2 p2 s r2 H2) as (sb & Hb & Hrb & Hsb & _).
  assert (H2a : index (rods sa) id2 = Some r2).
  { rewrite Hra, index_insert_ne by (lia || congruence). exact H2. }
  assert (H1b : index (rods sb) id1 = Some r1).
  { rewrite Hrb, index_insert_ne by (lia || congruence). exact H1. }
  destruct (handleRodChange_Some id2 p2 sa r2 H2a) as (s12 & H12 & Hr12 & Hs12 & _).
  destruct (handleRodChange_Some id1 p1 sb r1 H1b) as (s21 & H21 & Hr21 & Hs21 & _).
  exists s12, s21. rewrite Ha, Hb. cbn [mbind option_bind].
  split; [exact H12|]. split; [exact H21|].
  split; [rewrite Hr12, Hr21, Hra, Hrb; apply list_insert_insert_ne; lia|].
  split; [rewrite Hs12, Hs21, Hsa, Hsb; reflexivity|].
  split; [rewrite Hs12, Hsa; cbn; lia|].
  split; eapply handleRodChange_activeRodId; eassumption.
Qed.

(** X7. Two mutations of the same rod compose field by field: the board is
    the one that a single mutation with the merged request, later fields
    winning, would give; the two mutations count as two operations. *)
Theorem rod_change_twice id p1 p2 s :
  is_Some (index (rods s) id) ->
  exists s2 s',
    handleRodChange id p1 s ≫= handleRodChange id p2 = Some s2
    /\ handleRodChange id (mergePartial p1 p2) s = Some s'
    /\ rods s2 = rods s'
    /\ totalOperations (stats s2) = totalOperations (stats s') + 1.
Proof.
  intros [r Hi].
  destruct (handleRodChange_Some id p1 s r Hi) as (s1 & H1 & Hr1 & Hs1 & _).
  assert (Hi1 : index (rods s1) id = Some (spread r p1)).
  { rewrite Hr1. eapply index_insert_eq, Hi. }
  destruct (handleRodChange_Some id p2 s1 _ Hi1) as (s2 & H2 & Hr2 & Hs2 & _).
  destruct (handleRodChange_Some id (mergePartial p1 p2) s r Hi)
    as (s' & H' & Hr' & Hs' & _).
  exists s2, s'. rewrite H1. cbn [mbind option_bind].
  split; [exact H2|]. split; [exact H'|]. split.
  - rewrite Hr2, Hr', Hr1, list_insert_insert_eq, spread_merge. reflexivity.
  - rewrite Hs2, Hs', Hs1. cbn. lia.
Qed.

(** X8. A request without fields leaves the board as it is, and is an
    operation all the same: it is counted in [totalOperations] and marks the
    rod as the active one. *)
Theorem empty_request_counts id s :
  is_Some (index (rods s) id) ->
  exists s',
    handleRodChange id emptyPartial s = Some s'
    /\ rods s' = rods s
    /\ totalOperations (stats s') = totalOperations (stats s) + 1
    /\ activeRodId s' = Some id.
Proof.
  intros [r Hi].
  destruct (handleRodChange_Some id emptyPartial s r Hi) as (s' & Hs & Hr & Hst & _).
  exists s'. split; [exact Hs|]. split; [|split].
  - rewrite Hr. apply list_insert_id.
    apply index_Some in Hi as [_ Hl]. rewrite Hl. destruct r; reflexivity.
  - rewrite Hst. reflexivity.
  - eapply handleRodChange_activeRodId, Hs.
Qed.

(** *** Counters along a session *)

Lemma handle_totalOperations e s s' :
  handle e s = Some s' -> isConfirmedClear e = false ->
  totalOperations (stats s') =
  totalOperations (stats s) + (if isRodChange e then 1 else 0).
Proof.
  destruct e as [id newState | | confirmed | key | random now seed | m];
    cbn [handle isConfirmedClear isRodChange]; intros Hs Hne.
  - destruct (handleRodChange_inv _ _ _ _ Hs) as [oldRod Hi].
    destruct (handleRodChange_Some id newState s oldRod Hi) as (s'' & Hs' & _ & Hst & _).
    rewrite Hs in Hs'. injection Hs' as <-. rewrite Hst. reflexivity.
  - injection Hs as <-. cbn. lia.
  - injection Hs as <-. destruct confirmed; [discriminate Hne | cbn; lia].
  - injection Hs as <-. cbn. lia.
  - unfold startChallenge in Hs. destruct (index types _); [|discriminate].
    injection Hs as <-. cbn. lia.
  - injection Hs as <-. cbn. lia.
Qed.

(** X9. [totalOperations] counts the bead mutations: over any session in
    which the statistics are not cleared it grows by the number of
    [handleRodChange] calls, whatever else happens in between. *)
Theorem totalOperations_counts_rod_changes es c c' :
  run es c = Some c' ->
  Forall (fun e => isConfirmedClear e = false) (events es) ->
  totalOperations (stats (state c')) =
  totalOperations (stats (state c))
  + Z.of_nat (length (List.filter isRodChange (events es))).
Proof.
  revert c. induction es as [|[now e] es IH]; intros c; cbn [run].
  - intros [= <-] _. cbn. lia.
  - destruct (dispatch now e c) as [c1|] eqn:Hd; [|discriminate].
    intros Hrun Hall. unfold events in *. rewrite fmap_cons in *.
    apply Forall_cons in Hall as [He Hall].
    rewrite (IH c1 Hrun Hall).
    destruct (dispatch_render _ _ _ _ Hd) as (c0 & Ha & ->).
    destruct (render_frame now c0) as (_ & _ & _ & _ & Ht). rewrite Ht.
    unfold afterHandler in Ha.
    destruct (handle e (state c)) as [s'|] eqn:Hs; [|discriminate].
    injection Ha as <-. cbn [state].
    rewrite (handle_totalOperations e (state c) s' Hs He).
    cbn [snd List.filter]. destruct (isRodChange e); cbn [length]; lia.
Qed.


Lemma dispatch_correctAnswers now e c c' :
  dispatch now e c = Some c' -> isConfirmedClear e = false ->
  correctAnswers (stats (state c)) <= correctAnswers (stats (state c'))
  /\ correctAnswers (stats (state c')) <= correctAnswers (stats (state c)) + 1.
Proof.
  intros Hd He. destruct (dispatch_render _ _ _ _ Hd) as (c0 & Ha & ->).
  unfold afterHandler in Ha.
  destruct (handle e (state c)) as [s'|] eqn:Hs; [|discriminate].
  injection Ha as <-.
  assert (Hne : e <> ClearStats true) by (intros ->; discriminate He).
  destruct (handle_stats e (state c) s' Hs) as [Hkeep _].
  destruct (Hkeep Hne) as [Hca _].
  unfold render. cbn [renderedDeps state].
  destruct (decide _) as [_|_]; cbn [state]; [lia|].
  rewrite stats_validationEffect.
  destruct (judgedCorrect s'); cbn [correctAnswers]; lia.
Qed.

(** X10. No event but a confirmed [clearStats] lowers [correctAnswers], and
    every event raises it by one at most: over a session without clearing it
    lies between its old value and that value plus the number of events. *)
Theorem correctAnswers_bounds es c c' :
  run es c = Some c' ->
  Forall (fun e => isConfirmedClear e = false) (events es) ->
  correctAnswers (stats (state c)) <= correctAnswers (stats (state c'))
  /\ correctAnswers (stats (state c'))
     <= correctAnswers (stats (state c)) + Z.of_nat (length es).
Proof.
  revert c. induction es as [|[now e] es IH]; intros c; cbn [run].
  - intros [= <-] _. cbn. lia.
  - destruct (dispatch now e c) as [c1|] eqn:Hd; [|discriminate].
    intros Hrun Hall. unfold events in *. rewrite fmap_cons in *.
    apply Forall_cons in Hall as [He Hall].
    destruct (IH c1 Hrun Hall) as [Hlo Hhi].
    destruct (dispatch_correctAnswers now e c c1 Hd He) as [Hlo1 Hhi1].
    cbn [length]. lia.
Qed.




(** *** Events that leave the dependencies alone *)

Lemma render_same_deps now s' c :
  settled c ->
  rods s' = rods (state c) -> mode s' = mode (state c) ->
  challenge s' = challenge (state c) -> settings s' = settings (state c) ->
  render now (mkComponent s' (challengeRef c) (renderedDeps c))
  = mkComponent s' (challengeRef c) (renderedDeps c).
Proof.
  intros Hset Hr Hm Hc Hs. apply render_of_settled.
  unfold settled in *. cbn [renderedDeps]. rewrite Hset. f_equal.
  unfold depsOf, currentTotal. cbn [state challengeRef].
  rewrite Hr, Hm, Hc, Hs. reflexivity.
Qed.

(** X12. [clearStats] resets the statistics and nothing else, and the
    validator does not run again: the counters are 0 and the history is one
    point even while the board shows a Correct answer.  When the user does
    not confirm, nothing changes at all. *)
Theorem clearStats_dispatch now c :
  settled c ->
  dispatch now (ClearStats false) c = Some c
  /\ exists c',
       dispatch now (ClearStats true) c = Some c'
       /\ stats (state c') = mkStats 0 0 [mkPoint "重置" 0%Q]
       /\ feedbackMsg (state c') = feedbackMsg (state c)
       /\ rods (state c') = rods (state c)
       /\ challenge (state c') = challenge (state c)
       /\ mode (state c') = mode (state c)
       /\ settings (state c') = settings (state c).
Proof.
  intros Hset. split.
  - unfold dispatch, afterHandler. cbn [handle clearStats].
    rewrite render_same_deps by (exact Hset || reflexivity).
    destruct c; reflexivity.
  - unfold dispatch, afterHandler. cbn [handle clearStats].
    rewrite render_same_deps by (exact Hset || reflexivity).
    eexists. split; [reflexivity|]. repeat split.
Qed.

(** X13. [toggleSetting] negates the named setting and is undone by a second
    call.  A toggle of any setting but the voice changes nothing else:
    the validator does not run, so feedback and statistics are untouched. *)
Theorem toggleSetting_dispatch now key c :
  toggleSetting key (toggleSetting key (state c)) = state c
  /\ (settled c -> key <> VoiceEnabled ->
      dispatch now (ToggleSetting key) c
      = Some (mkComponent (toggleSetting key (state c)) (challengeRef c) (renderedDeps c))
      /\ stats (toggleSetting key (state c)) = stats (state c)
      /\ feedbackMsg (toggleSetting key (state c)) = feedbackMsg (state c)
      /\ voiceEnabled (settings (toggleSetting key (state c)))
         = voiceEnabled (settings (state c))).
Proof.
  split.
  - destruct c as [[? ? ? ? [? ? ? ?] ? ? ?] ? ?]. cbn [state].
    destruct key; unfold toggleSetting, set_settings; cbn;
      rewrite ?negb_involutive; reflexivity.
  - intros Hset Hkey.
    assert (Hv : voiceEnabled (settings (toggleSetting key (state c)))
                 = voiceEnabled (settings (state c)))
      by (destruct key; [reflexivity | contradiction | reflexivity..]).
    split; [|split; [reflexivity | split; [reflexivity | exact Hv]]].
    unfold dispatch, afterHandler. cbn [handle]. f_equal.
    apply render_of_settled. unfold settled in *. cbn [renderedDeps].
    rewrite Hset. f_equal. unfold depsOf, currentTotal. cbn [state challengeRef].
    rewrite Hv. reflexivity.
Qed.

(** *** Reset *)

Lemma validationEffect_zero_total now s :
  currentTotal s = 0 ->
  (forall ch, challenge s = Some ch -> isMulDiv (type ch) = true \/ 0 < targetValue ch) ->
  validationEffect now s = set_feedbackMsg "" s \/ validationEffect now s = s.
Proof.
  intros Hz Hch. unfold validationEffect.
  destruct (mode s); try (right; reflexivity).
  destruct (challenge s) as [ch|] eqn:Hc; [|right; reflexivity].
  left. specialize (Hch ch eq_refl).
  assert (Hnot : isCorrect ch (currentTotal s) = false).
  { unfold isCorrect. rewrite Hz. destruct (isMulDiv (type ch)) eqn:Hmd.
    - reflexivity.
    - destruct Hch as [Hx | Hx]; [discriminate Hx|]. apply Z.eqb_neq. lia. }
  rewrite Hnot, Hz.
  destruct (isAddSub (type ch)) eqn:Ha.
  - destruct Hch as [Hx | Hx].
    + destruct (type ch); discriminate.
    + replace (targetValue ch <? 0) with false by (symmetry; apply Z.ltb_ge; lia).
      reflexivity.
  - reflexivity.
Qed.

Lemma validationEffect_keeps now s :
  lastFormula (validationEffect now s) = lastFormula s
  /\ activeRodId (validationEffect now s) = activeRodId s.
Proof.
  unfold validationEffect.
  destruct (mode s) eqn:Hm; try (split; reflexivity).
  destruct (challenge s) as [ch|] eqn:Hc; try (split; reflexivity).
  destruct (isCorrect ch (currentTotal s)); [split; reflexivity|].
  destruct (isAddSub (type ch)), (targetValue ch <? currentTotal s),
    (0 <? currentTotal s); split; reflexivity.
Qed.

Lemma render_keeps now c :
  lastFormula (state (render now c)) = lastFormula (state c)
  /\ activeRodId (state (render now c)) = activeRodId (state c).
Proof.
  unfold render. destruct (decide _); [split; reflexivity|].
  apply validationEffect_keeps.
Qed.

(** X14. Reset puts the initial rods back, forgets the formula and the
    active rod, and keeps mode, challenge, settings and the statistics of
    operations; a second reset changes nothing more.  When the initial board
    totals 0 and the target of a challenge that is not MUL or DIV is
    positive, the feedback after a reset is empty and no answer is counted. *)
Theorem reset_dispatch now c :
  handleReset (handleReset (state c)) = handleReset (state c)
  /\ exists c',
       dispatch now Reset c = Some c'
       /\ rods (state c') = createInitialRods
       /\ lastFormula (state c') = None /\ activeRodId (state c') = None
       /\ mode (state c') = mode (state c)
       /\ challenge (state c') = challenge (state c)
       /\ settings (state c') = settings (state c)
       /\ totalOperations (stats (state c')) = totalOperations (stats (state c))
       /\ (calculateTotalValue createInitialRods = 0 ->
           (forall ch, challenge (state c) = Some ch ->
                       isMulDiv (type ch) = true \/ 0 < targetValue ch) ->
           feedbackMsg (state c') = "" /\ stats (state c') = stats (state c)).
Proof.
  split; [reflexivity|].
  unfold dispatch, afterHandler. cbn [handle]. eexists. split; [reflexivity|].
  set (c1 := mkComponent (handleReset (state c)) (challengeRef c) (renderedDeps c)).
  destruct (render_frame now c1) as (Hr & Hm & Hc & Hs & Ht).
  rewrite Hr, Hm, Hc, Hs, Ht.
  repeat (split; [reflexivity|]).
  destruct (render_keeps now c1) as [Hl Ha]. rewrite Hl, Ha.
  repeat (split; [reflexivity|]).
  intros Hz Hch. unfold render. destruct (decide _); [split; reflexivity|].
  cbn [state c1].
  destruct (validationEffect_zero_total now (handleReset (state c))) as [E | E];
    [exact Hz | exact Hch | rewrite E; split; reflexivity..].
Qed.

(** *** Starting a challenge, continued *)

Lemma Qfloor_unique (x : Q) (k : Z) :
  (inject_Z k <= x)%Q -> (x < inject_Z (k + 1))%Q -> Qfloor x = k.
Proof.
  intros Hlo Hhi.
  pose proof (Qfloor_le x) as Hf1. pose proof (Qlt_floor x) as Hf2.
  assert (Qfloor x < k + 1) by (rewrite Zlt_Qlt; eapply Qle_lt_trans; eassumption).
  assert (k < Qfloor x + 1) by (rewrite Zlt_Qlt; eapply Qle_lt_trans; eassumption).
  lia.
Qed.

Lemma startChallenge_at random now seed s (k : nat) rType :
  types !! k = Some rType ->
  (inject_Z (Z.of_nat k) <= random * 4)%Q ->
  (random * 4 < inject_Z (Z.of_nat k + 1))%Q ->
  startChallenge random now seed s =
  Some (set_mode Training
          (handleReset
             (set_challenge
                (Some (mkChallenge (toString now) rType
                         (g_question (generateChallenge rType seed))
                         (g_targetValue (generateChallenge rType seed))
                         (g_steps (generateChallenge rType seed)) 0
                         (g_ruleDescription (generateChallenge rType seed)))) s))).
Proof.
  intros Hk Hlo Hhi. unfold startChallenge.
  change (inject_Z (Z.of_nat (length types))) with 4%Q.
  rewrite (Qfloor_unique _ _ Hlo Hhi).
  unfold index. destruct (Z.ltb_spec (Z.of_nat k) 0); [lia|].
  rewrite Nat2Z.id, Hk. reflexivity.
Qed.

(** X15. The four kinds of problem are drawn by quarters of the unit
    interval: a random number below 1/4 starts an ADD challenge, one in
    [1/4, 1/2) a SUB, one in [1/2, 3/4) a MUL and one in [3/4, 1) a DIV
    challenge; the problem itself is the one [generateChallenge] returns for
    that kind. *)
Theorem startChallenge_quartiles random now seed s :
  (0 <= random)%Q -> (random < 1)%Q ->
  exists s' ch,
    startChallenge random now seed s = Some s'
    /\ challenge s' = Some ch
    /\ targetValue ch = g_targetValue (generateChallenge (type ch) seed)
    /\ question ch = g_question (generateChallenge (type ch) seed)
    /\ ((random < 1#4)%Q -> type ch = ADD)
    /\ ((1#4 <= random)%Q -> (random < 1#2)%Q -> type ch = SUB)
    /\ ((1#2 <= random)%Q -> (random < 3#4)%Q -> type ch = MUL)
    /\ ((3#4 <= random)%Q -> type ch = DIV).
Proof.
  intros H0 H1.
  destruct (Qlt_le_dec random (1#4)) as [A | A];
    [| destruct (Qlt_le_dec random (1#2)) as [B | B];
       [| destruct (Qlt_le_dec random (3#4)) as [C | C]]].
  - eexists. eexists.
    split; [apply (startChallenge_at random now seed s 0 ADD eq_refl);
              [change (inject_Z (Z.of_nat 0)) with 0%Q | change (inject_Z (Z.of_nat 0 + 1)) with 1%Q]; lra|].
    cbn. repeat split; intros; try reflexivity; exfalso; lra.
  - eexists. eexists.
    split; [apply (startChallenge_at random now seed s 1 SUB eq_refl);
              [change (inject_Z (Z.of_nat 1)) with 1%Q | change (inject_Z (Z.of_nat 1 + 1)) with 2%Q]; lra|].
    cbn. repeat split; intros; try reflexivity; exfalso; lra.
  - eexists. eexists.
    split; [apply (startChallenge_at random now seed s 2 MUL eq_refl);
              [change (inject_Z (Z.of_nat 2)) with 2%Q | change (inject_Z (Z.of_nat 2 + 1)) with 3%Q]; lra|].
    cbn. repeat split; intros; try reflexivity; exfalso; lra.
  - eexists. eexists.
    split; [apply (startChallenge_at random now seed s 3 DIV eq_refl);
              [change (inject_Z (Z.of_nat 3)) with 3%Q | change (inject_Z (Z.of_nat 3 + 1)) with 4%Q]; lra|].
    cbn. repeat split; intros; try reflexivity; exfalso; lra.
Qed.

Lemma startChallenge_total random now seed s :
  (0 <= random)%Q -> (random < 1)%Q ->
  exists rType,
    startChallenge random now seed s =
    Some (set_mode Training
            (handleReset
               (set_challenge
                  (Some (mkChallenge (toString now) rType
                           (g_question (generateChallenge rType seed))
                           (g_targetValue (generateChallenge rType seed))
                           (g_steps (generateChallenge rType seed)) 0
                           (g_ruleDescription (generateChallenge rType seed)))) s))).
Proof.
  intros H0 H1. pose proof (random_index random H0 H1) as Hr.
  unfold startChallenge.
  set (k := Qfloor (random * inject_Z (Z.of_nat (length types)))) in *.
  destruct (index types k) as [rType|] eqn:Hi; [exists rType; reflexivity|].
  exfalso. unfold index in Hi. destruct (Z.ltb_spec k 0); [lia|].
  apply lookup_ge_None in Hi. change (length types) with 4%nat in Hi. lia.
Qed.

(** X16. A started challenge is validated at once against the cleared
    board: the new challenge object always re-runs the validator.  When the
    initial board totals 0, a MUL or DIV problem, or one with a positive
    target, starts with empty feedback and unchanged statistics, while an
    ADD or SUB problem whose result is 0 is counted as a correct answer the
    moment it is started. *)
Theorem startChallenge_dispatch now random t seed c :
  settled c -> (0 <= random)%Q -> (random < 1)%Q ->
  exists s1 ch,
    startChallenge random t seed (state c) = Some s1
    /\ challenge s1 = Some ch
    /\ mode s1 = Training /\ rods s1 = createInitialRods
    /\ currentStepIndex ch = 0 /\ ch_id ch = toString t
    /\ (exists d, dispatch now (StartChallenge random t seed) c
                  = Some (mkComponent (validationEffect now s1) (S (challengeRef c)) d))
    /\ (calculateTotalValue createInitialRods = 0 ->
        isMulDiv (type ch) = true \/ 0 < targetValue ch ->
        feedbackMsg (validationEffect now s1) = ""
        /\ stats (validationEffect now s1) = stats (state c))
    /\ (calculateTotalValue createInitialRods = 0 ->
        isMulDiv (type ch) = false -> targetValue ch = 0 ->
        feedbackMsg (validationEffect now s1) = msgCorrect
        /\ correctAnswers (stats (validationEffect now s1))
           = correctAnswers (stats (state c)) + 1).
Proof.
  intros Hset H0 H1.
  destruct (startChallenge_total random t seed (state c) H0 H1) as [rType Hs].
  eexists. eexists. split; [exact Hs|].
  split; [reflexivity|]. split; [reflexivity|]. split; [reflexivity|].
  split; [reflexivity|]. split; [reflexivity|]. split; [|split].
  - unfold dispatch, afterHandler. cbn [handle]. rewrite Hs.
    unfold render. cbn [renderedDeps].
    destruct (decide _) as [E | _]; [|eexists; reflexivity].
    exfalso. unfold settled in Hset. rewrite Hset in E.
    apply (f_equal (fun o => dep_challenge <$> o)) in E.
    unfold depsOf in E. cbn in E.
    destruct (challenge (state c)); [injection E; lia | discriminate E].
  - intros Hz Hch.
    match goal with |- feedbackMsg (validationEffect now ?s) = _ /\ _ =>
      destruct (validationEffect_zero_total now s) as [E | E] end;
      [exact Hz | intros ch [= <-]; exact Hch | rewrite E; split; reflexivity..].
  - intros Hz Hmd Ht. unfold validationEffect, isCorrect, currentTotal.
    cbn [mode challenge rods type targetValue set_mode handleReset set_activeRodId
         set_feedbackMsg set_lastFormula set_rods set_challenge] in *.
    rewrite Hmd, Hz, Ht. cbn. split; reflexivity.
Qed.

(** *** Speech *)

Lemma speak_cases voice synthesis text now sp :
  speak voice synthesis text now sp = sp
  \/ (voice = true /\ synthesis = true /\ 500 <= now - lastSpeakTime sp
      /\ speak voice synthesis text now sp
         = mkSpeaker now (spoken sp ++ [(now, text)])).
Proof.
  unfold speak. destruct voice; [|left; reflexivity]. cbn [negb].
  destruct (Z.ltb_spec (now - lastSpeakTime sp) 500); [left; reflexivity|].
  destruct synthesis; [right; auto | left; reflexivity].
Qed.

Lemma spaced_snoc (l : list (Z * string)) (u : Z * string) :
  spaced l ->
  (forall u', last l = Some u' -> 500 <= u.1 - u'.1) ->
  spaced (l ++ [u]).
Proof.
  induction l as [|a l IH]; intros Hs Hl; [cbn; auto|].
  destruct Hs as [Ha Hs]. destruct l as [|b l].
  - cbn. split; [|auto]. apply (Hl a). reflexivity.
  - cbn [app spaced] in *. split; [exact Ha|].
    apply IH; [exact Hs|]. intros u' Hu'. apply Hl. exact Hu'.
Qed.

Lemma speak_ok voice synthesis text now sp :
  speakerOk sp -> speakerOk (speak voice synthesis text now sp).
Proof.
  intros [Hs Hl].
  destruct (speak_cases voice synthesis text now sp) as [-> | (_ & _ & Hnow & ->)];
    [split; assumption|].
  split; cbn [spoken lastSpeakTime].
  - apply spaced_snoc; [exact Hs|]. intros u' Hu'. rewrite (Hl u' Hu'). exact Hnow.
  - intros u. rewrite last_snoc. intros [= <-]. reflexivity.
Qed.

(** X17. Speech is throttled: whatever the calls of [speak] and the times
    they read, two successive utterances are at least 500 ms apart, and
    every utterance comes, in order, from a call made with the voice enabled
    and a synthesiser present. *)
Theorem speech_throttled ks sp :
  speakerOk sp ->
  speakerOk (speakAll ks sp)
  /\ exists l,
       spoken (speakAll ks sp) = spoken sp ++ l
       /\ l `sublist_of`
            ((fun k => (call_now k, call_text k)) <$> List.filter audible ks).
Proof.
  revert sp. induction ks as [|k ks IH]; intros sp Hok.
  - split; [exact Hok|]. exists []. rewrite app_nil_r. split; [reflexivity | constructor].
  - unfold speakAll. cbn [foldl]. fold (speakAll ks (speakCall k sp)).
    assert (Hok1 : speakerOk (speakCall k sp)) by (apply speak_ok, Hok).
    destruct (IH _ Hok1) as (Hok' & l & Hl & Hsub).
    split; [exact Hok'|].
    unfold speakCall in *.
    destruct (speak_cases (call_voice k) (call_synthesis k) (call_text k)
                (call_now k) sp) as [E | (Hv & Hsy & _ & E)]; rewrite E in *.
    + exists l. split; [exact Hl|]. cbn [List.filter].
      destruct (audible k); [rewrite fmap_cons; apply sublist_cons|]; exact Hsub.
    + exists ((call_now k, call_text k) :: l). cbn [spoken] in Hl.
      split; [rewrite Hl, <- app_assoc; reflexivity|].
      cbn [List.filter]. unfold audible at 1. rewrite Hv, Hsy. cbn [andb].
      rewrite fmap_cons. apply sublist_skip, Hsub.
Qed.


(** *** The feedback badge *)

Lemma feedbackMsg_validationEffect_in now s :
  feedbackMsg (validationEffect now s) = feedbackMsg s
  \/ feedbackMsg (validationEffect now s) ∈ [msgCorrect; msgTooHigh; msgInProgress; msgIdle].
Proof.
  unfold validationEffect.
  destruct (mode s); try (left; reflexivity).
  destruct (challenge s) as [ch|]; [|left; reflexivity].
  right. destruct (isCorrect ch (currentTotal s)); [cbn; rewrite !elem_of_cons; auto|].
  destruct (isAddSub (type ch)), (targetValue ch <? currentTotal s),
    (0 <? currentTotal s); cbn; rewrite !elem_of_cons; auto.
Qed.

Lemma handle_feedbackMsg e s s' :
  handle e s = Some s' -> feedbackMsg s' = feedbackMsg s \/ feedbackMsg s' = msgIdle.
Proof.
  destruct e as [id newState | | confirmed | key | random now seed | m]; cbn [handle].
  - intros Hs. destruct (handleRodChange_inv _ _ _ _ Hs) as [oldRod Hi].
    destruct (handleRodChange_Some id newState s oldRod Hi)
      as (s'' & Hs' & _ & _ & _ & _ & _ & Hf).
    rewrite Hs in Hs'. injection Hs' as <-. left; exact Hf.
  - intros [= <-]. right; reflexivity.
  - intros [= <-]. left. destruct confirmed; reflexivity.
  - intros [= <-]. left; reflexivity.
  - unfold startChallenge. destruct (index types _); [|discriminate].
    intros [= <-]. right; reflexivity.
  - intros [= <-]. left; reflexivity.
Qed.

Lemma badge_of_message msg :
  msg ∈ [msgCorrect; msgTooHigh; msgInProgress; msgIdle] ->
  (includes msg "正确" = true <-> msg = msgCorrect)
  /\ ((if String.eqb msg "" then "请拨珠计算" else msg) = "请拨珠计算" <-> msg = msgIdle).
Proof.
  rewrite !elem_of_cons, elem_of_nil.
  intros [-> | [-> | [-> | [-> | []]]]]; split; split; intros E;
    first [ reflexivity | vm_compute in E; discriminate E ].
Qed.

(** X19. In a session from the first render the feedback is always one of
    the four messages of the validator, so the badge is green exactly when
    the verdict is Correct, and shows its placeholder exactly when the
    verdict is Idle. *)
Theorem badge_shows_verdict es t c :
  run es (mount t) = Some c ->
  feedbackMsg (state c) ∈ [msgCorrect; msgTooHigh; msgInProgress; msgIdle]
  /\ (badgeIsGreen (state c) = true <-> feedbackMsg (state c) = msgCorrect)
  /\ (badgeText (state c) = "请拨珠计算" <-> feedbackMsg (state c) = msgIdle).
Proof.
  assert (Hgen : forall es c0 c,
            run es c0 = Some c ->
            feedbackMsg (state c0) ∈ [msgCorrect; msgTooHigh; msgInProgress; msgIdle] ->
            feedbackMsg (state c) ∈ [msgCorrect; msgTooHigh; msgInProgress; msgIdle]).
  { clear es t c. induction es as [|[now e] es IH]; intros c0 c; cbn [run].
    - intros [= <-] Hin. exact Hin.
    - destruct (dispatch now e c0) as [c1|] eqn:Hd; [|discriminate].
      intros Hrun Hin. apply (IH c1 c Hrun).
      destruct (dispatch_render _ _ _ _ Hd) as (c' & Ha & ->).
      unfold afterHandler in Ha.
      destruct (handle e (state c0)) as [s'|] eqn:Hs; [|discriminate].
      injection Ha as <-.
      assert (Hin' : feedbackMsg s' ∈ [msgCorrect; msgTooHigh; msgInProgress; msgIdle]).
      { destruct (handle_feedbackMsg e (state c0) s' Hs) as [-> | ->];
          [exact Hin | rewrite !elem_of_cons; auto]. }
      unfold render. destruct (decide _); cbn [state]; [exact Hin'|].
      destruct (feedbackMsg_validationEffect_in now s') as [-> | Hv]; assumption. }
  intros Hrun.
  assert (Hin : feedbackMsg (state c) ∈ [msgCorrect; msgTooHigh; msgInProgress; msgIdle]).
  { apply (Hgen es (mount t) c Hrun). unfold mount, render.
    destruct (decide _); cbn; rewrite !elem_of_cons; auto. }
  split; [exact Hin|]. unfold badgeIsGreen, badgeText.
  apply badge_of_message, Hin.
Qed.

(** *** The accuracy curve *)

End Coverage.

(** ** The component on the five-rod board *)

#[local] Existing Instance fiveRodLogic.

(** The scenarios of the validator. *)
Example mul_42000_matches_42 :
  feedbackMsg (@validationEffect fiveRodLogic "10:00"
                 (training mul42 [(0,4); (0,2); (0,0); (0,0); (0,0)])) = msgCorrect.
Proof. reflexivity. Qed.

Example mul_60000_matches_600 :
  feedbackMsg (@validationEffect fiveRodLogic "10:00"
                 (training mul600 [(1,1); (0,0); (0,0); (0,0); (0,0)])) = msgCorrect.
Proof. reflexivity. Qed.

Example mul_6000000_matches_600 :
  feedbackMsg (@validationEffect fiveRodLogic "10:00"
                 (training mul600 [(1,1); (0,0); (0,0); (0,0); (0,0); (0,0); (0,0)]))
  = msgCorrect.
Proof. reflexivity. Qed.

Example mul_0_never_matches_0 :
  feedbackMsg (@validationEffect fiveRodLogic "10:00"
                 (training mul0 [(0,0); (0,0); (0,0); (0,0); (0,0)])) = msgIdle.
Proof. reflexivity. Qed.

(** The scenario of the ADD challenge with target 15: the board totals 0, 7
    and 15 give Idle, InProgress and Correct. *)
Example add_scenario_0_7_15 :
  let start := [("10:00", StartChallenge 0.1 1700000000000 0)] in
  let seven := start ++ [("10:01", RodChange 4 (setBeads 1 2))] in
  let fifteen := seven ++ [("10:02", RodChange 4 (setBeads 2 5))] in
  (fun c => (currentTotal (state c), feedbackMsg (state c))) <$> run start (mount "")
    = Some (0, msgIdle)
  /\ (fun c => (currentTotal (state c), feedbackMsg (state c))) <$> run seven (mount "")
    = Some (7, msgInProgress)
  /\ (fun c => (currentTotal (state c), feedbackMsg (state c))) <$> run fifteen (mount "")
    = Some (15, msgCorrect).
Proof. repeat split; reflexivity. Qed.

(** The session [solveMul10] ends Correct with one correct answer counted;
    switching the voice off then counts a second one, and so does moving
    the units rod from 10 to 1, a total that matches the target 10 as well. *)
Example correct_counted_again :
  (correctAnswers ∘ stats ∘ state) <$> @run fiveRodLogic solveMul10 (mount "") = Some 1
  /\ (correctAnswers ∘ stats ∘ state) <$>
       @run fiveRodLogic (solveMul10 ++ [("10:02", ToggleSetting VoiceEnabled)]) (mount "")
     = Some 2
  /\ (correctAnswers ∘ stats ∘ state) <$>
       @run fiveRodLogic (solveMul10 ++ [("10:02", RodChange 4 (setBeads 0 1))]) (mount "")
     = Some 2.
Proof. repeat split; reflexivity. Qed.


(** C3, counterexample.  On the initial five-rod board a request for six
    earth beads on the units rod is accepted. *)
Lemma bounds_rejection_fails : ~ bounds_rejection fiveRodLogic.
Proof.
  intros Hclaim.
  specialize (Hclaim (@initialState fiveRodLogic) 4
                (mkPartial None None None (Some 6)) (mkRod 4 0 0 0) eq_refl).
  assert (Hout : outOfRange (mkPartial None None None (Some 6))).
  { right. exists 6. split; [reflexivity | lia]. }
  specialize (Hclaim Hout). vm_compute in Hclaim. discriminate Hclaim.
Qed.

Example six_earth_beads_accepted :
  (fun s => rods s !! 4%nat) <$>
    @handleRodChange fiveRodLogic 4 (mkPartial None None None (Some 6)) initialState
  = Some (Some (mkRod 4 0 0 6)).
Proof. reflexivity. Qed.

Example three_heaven_beads_accepted :
  (fun s => rods s !! 4%nat) <$>
    @handleRodChange fiveRodLogic 4 (mkPartial None None (Some 3) None) initialState
  = Some (Some (mkRod 4 0 3 0)).
Proof. reflexivity. Qed.

(** ** The theorems at concrete inputs *)


Lemma add_sub_verdict_witness :
  let s := training add15 [(0,0); (0,0); (0,0); (0,0); (1,2)] in
  let z := training add15 [(0,0); (0,0); (0,0); (0,0); (0,0)] in
  mode s = Training /\ challenge s = Some add15
  /\ (type add15 = ADD \/ type add15 = SUB)
  /\ currentTotal s = 7 /\ currentTotal z = 0 /\ targetValue add15 = 15
  /\ feedbackMsg (validationEffect "10:00" s) = msgInProgress
  /\ feedbackMsg (validationEffect "10:00" z) = msgIdle.
Proof.
  intros s z.
  split; [reflexivity|]. split; [reflexivity|].
  split; [left; reflexivity|]. split; [reflexivity|].
  split; [reflexivity|]. split; [reflexivity|].
  assert (Hv : currentTotal s = 7) by reflexivity.
  assert (Hz : currentTotal z = 0) by reflexivity.
  split.
  - destruct (add_sub_verdict "10:00" s add15 7 15 eq_refl eq_refl
                (or_introl eq_refl) Hv eq_refl) as (_ & _ & Hp & _).
    apply Hp. lia.
  - destruct (add_sub_verdict "10:00" z add15 0 15 eq_refl eq_refl
                (or_introl eq_refl) Hz eq_refl) as (_ & _ & _ & Hi & _).
    apply Hi; lia.
Defined.

Lemma rod_change_unchecked_witness :
  index (rods initialState) 4 = Some (mkRod 4 0 0 0)
  /\ exists s',
       handleRodChange 4 (mkPartial None None None (Some 6)) initialState = Some s'
       /\ index (rods s') 4 = Some (mkRod 4 0 0 6).
Proof.
  assert (Hi : index (rods initialState) 4 = Some (mkRod 4 0 0 0)) by reflexivity.
  split; [exact Hi|].
  apply (rod_change_unchecked 4 (mkPartial None None None (Some 6)) initialState
           (mkRod 4 0 0 0) Hi).
Defined.

Lemma totalOperations_incremented_witness :
  is_Some (index (rods (state (mount ""))) 4)
  /\ exists c',
       dispatch "10:00" (RodChange 4 (setBeads 1 2)) (mount "") = Some c'
       /\ totalOperations (stats (state c')) = totalOperations (stats (state (mount ""))) + 1.
Proof.
  assert (Hi : is_Some (index (rods (state (mount ""))) 4)) by (eexists; reflexivity).
  split; [exact Hi|].
  apply (totalOperations_incremented "10:00" 4 (setBeads 1 2) (mount "") Hi).
Defined.

Lemma rod_change_frame_witness :
  is_Some (index (rods (state (mount ""))) 4)
  /\ exists c',
       dispatch "10:00" (RodChange 4 (setBeads 1 2)) (mount "") = Some c'
       /\ index (rods (state c')) 3 = index (rods (state (mount ""))) 3.
Proof.
  assert (Hi : is_Some (index (rods (state (mount ""))) 4)) by (eexists; reflexivity).
  split; [exact Hi|].
  destruct (rod_change_frame "10:00" 4 (setBeads 1 2) (mount "") Hi)
    as (c' & Hd & _ & Hf).
  exists c'. split; [exact Hd|]. apply Hf. lia.
Defined.

Lemma startChallenge_type_witness :
  (0 <= 0.6)%Q /\ (0.6 < 1)%Q
  /\ exists s' ch,
       startChallenge 0.6 1700000000000 0 initialState = Some s'
       /\ challenge s' = Some ch /\ type ch <> MIXED.
Proof.
  assert (H0 : (0 <= 0.6)%Q) by (unfold Qle; cbn; lia).
  assert (H1 : (0.6 < 1)%Q) by (unfold Qlt; cbn; lia).
  split; [exact H0|]. split; [exact H1|].
  destruct (startChallenge_type 0.6 1700000000000 0 initialState) as [Hty Htot].
  destruct (Htot H0 H1) as [s' Hs].
  destruct (Hty s' Hs) as (ch & Hch & _ & Hne).
  exists s', ch. split; [exact Hs|]. split; [exact Hch | exact Hne].
Defined.

Lemma correct_event_history_witness :
  let s := training mul42 [(0,4); (0,2); (0,0); (0,0); (0,0)] in
  judgedCorrect s = true
  /\ accuracyHistory (stats (validationEffect "10:00" s))
     = slice_last 10
         (accuracyHistory (stats s) ++
          [mkPoint "10:00" (Qmin 100 ((inject_Z 1 / (inject_Z 1 + 0.5)) * 100))]).
Proof.
  intros s.
  assert (Hj : judgedCorrect s = true) by reflexivity.
  split; [exact Hj|].
  apply (correct_event_history "10:00" s Hj).
Defined.




(** ** The further properties at concrete inputs *)


Lemma other_types_verdict_witness :
  let s := training mul42 [(0,0); (0,0); (0,0); (0,4); (0,3)] in
  currentTotal s = 43 /\ isAddSub (type mul42) = false
  /\ feedbackMsg (validationEffect "10:00" s) <> msgTooHigh.
Proof.
  intros s. split; [reflexivity|]. split; [reflexivity|].
  apply (other_types_verdict "10:00" s mul42 eq_refl eq_refl eq_refl).
Defined.


Lemma dispatch_settled_witness :
  exists c',
    dispatch "10:00" (RodChange 4 (setBeads 1 2)) (mount "") = Some c'
    /\ render "10:05" c' = c'.
Proof.
  destruct (dispatch "10:00" (RodChange 4 (setBeads 1 2)) (mount "")) as [c'|] eqn:Hd;
    [|discriminate Hd].
  exists c'. split; [reflexivity|].
  apply (proj2 (dispatch_settled _ _ _ _ Hd)).
Defined.

Lemma rod_changes_commute_witness :
  is_Some (index (rods initialState) 3) /\ is_Some (index (rods initialState) 4)
  /\ 3 <> 4
  /\ exists s12 s21,
       handleRodChange 3 (setBeads 0 4) initialState ≫= handleRodChange 4 (setBeads 1 2)
       = Some s12
       /\ handleRodChange 4 (setBeads 1 2) initialState ≫= handleRodChange 3 (setBeads 0 4)
          = Some s21
       /\ rods s12 = rods s21.
Proof.
  assert (H3 : is_Some (index (rods initialState) 3)) by (eexists; reflexivity).
  assert (H4 : is_Some (index (rods initialState) 4)) by (eexists; reflexivity).
  assert (Hne : 3 <> 4) by lia.
  split; [exact H3|]. split; [exact H4|]. split; [exact Hne|].
  destruct (rod_changes_commute 3 4 (setBeads 0 4) (setBeads 1 2) initialState H3 H4 Hne)
    as (s12 & s21 & H12 & H21 & Hr & _).
  exists s12, s21. split; [exact H12|]. split; [exact H21 | exact Hr].
Defined.

Lemma rod_change_twice_witness :
  is_Some (index (rods initialState) 4)
  /\ exists s2 s',
       handleRodChange 4 (mkPartial None None (Some 1) None) initialState
         ≫= handleRodChange 4 (mkPartial None (Some 7) None (Some 2)) = Some s2
       /\ handleRodChange 4 (mkPartial None (Some 7) (Some 1) (Some 2)) initialState
          = Some s'
       /\ rods s2 = rods s'.
Proof.
  assert (H4 : is_Some (index (rods initialState) 4)) by (eexists; reflexivity).
  split; [exact H4|].
  destruct (rod_change_twice 4 (mkPartial None None (Some 1) None)
              (mkPartial None (Some 7) None (Some 2)) initialState H4)
    as (s2 & s' & H2 & H' & Hr & _).
  exists s2, s'. split; [exact H2|]. split; [exact H' | exact Hr].
Defined.

Lemma empty_request_counts_witness :
  is_Some (index (rods initialState) 0)
  /\ exists s',
       handleRodChange 0 emptyPartial initialState = Some s'
       /\ rods s' = rods initialState
       /\ totalOperations (stats s') = totalOperations (stats initialState) + 1.
Proof.
  assert (H0 : is_Some (index (rods initialState) 0)) by (eexists; reflexivity).
  split; [exact H0|].
  destruct (empty_request_counts 0 initialState H0) as (s' & Hs & Hr & Ht & _).
  exists s'. split; [exact Hs|]. split; [exact Hr | exact Ht].
Defined.

Lemma totalOperations_counts_rod_changes_witness :
  exists c,
    run solveMul10 (mount "") = Some c
    /\ Forall (fun e => isConfirmedClear e = false) (events solveMul10)
    /\ totalOperations (stats (state c))
       = totalOperations (stats (state (mount ""))) + 1.
Proof.
  destruct (run solveMul10 (mount "")) as [c|] eqn:Hrun; [|discriminate Hrun].
  assert (Hall : Forall (fun e => isConfirmedClear e = false) (events solveMul10))
    by (repeat constructor).
  exists c. split; [reflexivity|]. split; [exact Hall|].
  apply (totalOperations_counts_rod_changes solveMul10 (mount "") c Hrun Hall).
Defined.

Lemma correctAnswers_bounds_witness :
  exists c,
    run solveMul10 (mount "") = Some c
    /\ Forall (fun e => isConfirmedClear e = false) (events solveMul10)
    /\ correctAnswers (stats (state c))
       <= correctAnswers (stats (state (mount ""))) + 2.
Proof.
  destruct (run solveMul10 (mount "")) as [c|] eqn:Hrun; [|discriminate Hrun].
  assert (Hall : Forall (fun e => isConfirmedClear e = false) (events solveMul10))
    by (repeat constructor).
  exists c. split; [reflexivity|]. split; [exact Hall|].
  apply (proj2 (correctAnswers_bounds solveMul10 (mount "") c Hrun Hall)).
Defined.


Lemma clearStats_dispatch_witness :
  exists c c',
    run solveMul10 (mount "") = Some c
    /\ settled c /\ feedbackMsg (state c) = msgCorrect
    /\ dispatch "10:02" (ClearStats true) c = Some c'
    /\ correctAnswers (stats (state c')) = 0
    /\ feedbackMsg (state c') = msgCorrect.
Proof.
  destruct (run solveMul10 (mount "")) as [c|] eqn:Hrun; [|discriminate Hrun].
  vm_compute in Hrun. injection Hrun as <-.
  match goal with |- exists c c', Some ?k = Some c /\ _ => set (c0 := k) end.
  assert (Hset : settled c0) by reflexivity.
  destruct (proj2 (clearStats_dispatch "10:02" c0 Hset)) as (c' & Hd & Hst & Hf & _).
  exists c0, c'. split; [reflexivity|]. split; [exact Hset|].
  split; [reflexivity|]. split; [exact Hd|].
  split; [rewrite Hst; reflexivity | rewrite Hf; reflexivity].
Defined.

Lemma toggleSetting_dispatch_witness :
  settled (mount "") /\ MentalMode <> VoiceEnabled
  /\ dispatch "10:00" (ToggleSetting MentalMode) (mount "")
     = Some (mkComponent (toggleSetting MentalMode (state (mount "")))
               (challengeRef (mount "")) (renderedDeps (mount ""))).
Proof.
  assert (Hset : settled (mount "")) by reflexivity.
  assert (Hne : MentalMode <> VoiceEnabled) by discriminate.
  split; [exact Hset|]. split; [exact Hne|].
  apply (proj2 (toggleSetting_dispatch "10:00" MentalMode (mount "")) Hset Hne).
Defined.

Lemma reset_dispatch_witness :
  exists c c',
    run solveMul10 (mount "") = Some c
    /\ calculateTotalValue createInitialRods = 0
    /\ dispatch "10:02" Reset c = Some c'
    /\ feedbackMsg (state c') = "" /\ stats (state c') = stats (state c).
Proof.
  destruct (run solveMul10 (mount "")) as [c|] eqn:Hrun; [|discriminate Hrun].
  vm_compute in Hrun. injection Hrun as <-.
  match goal with |- exists c c', Some ?k = Some c /\ _ => set (c0 := k) end.
  assert (Hz : calculateTotalValue createInitialRods = 0) by reflexivity.
  destruct (proj2 (reset_dispatch "10:02" c0))
    as (c' & Hd & _ & _ & _ & _ & _ & _ & _ & Hfb).
  exists c0, c'. split; [reflexivity|]. split; [exact Hz|]. split; [exact Hd|].
  apply (Hfb Hz). intros ch [= <-]. left. reflexivity.
Defined.

Lemma startChallenge_quartiles_witness :
  (0 <= 0.6)%Q /\ (0.6 < 1)%Q /\ (1#2 <= 0.6)%Q /\ (0.6 < 3#4)%Q
  /\ exists s' ch,
       startChallenge 0.6 1700000000000 0 initialState = Some s'
       /\ challenge s' = Some ch /\ type ch = MUL.
Proof.
  assert (H0 : (0 <= 0.6)%Q) by (unfold Qle; cbn; lia).
  assert (H1 : (0.6 < 1)%Q) by (unfold Qlt; cbn; lia).
  assert (H2 : (1#2 <= 0.6)%Q) by (unfold Qle; cbn; lia).
  assert (H3 : (0.6 < 3#4)%Q) by (unfold Qlt; cbn; lia).
  split; [exact H0|]. split; [exact H1|]. split; [exact H2|]. split; [exact H3|].
  destruct (startChallenge_quartiles 0.6 1700000000000 0 initialState H0 H1)
    as (s' & ch & Hs & Hc & _ & _ & _ & _ & Hm & _).
  exists s', ch. split; [exact Hs|]. split; [exact Hc | exact (Hm H2 H3)].
Defined.

Lemma startChallenge_dispatch_witness :
  settled (mount "") /\ (0 <= 0.6)%Q /\ (0.6 < 1)%Q
  /\ calculateTotalValue createInitialRods = 0
  /\ exists s1 ch,
       startChallenge 0.6 1700000000000 0 (state (mount "")) = Some s1
       /\ challenge s1 = Some ch /\ isMulDiv (type ch) = true
       /\ feedbackMsg (validationEffect "10:00" s1) = "".
Proof.
  assert (Hset : settled (mount "")) by reflexivity.
  assert (H0 : (0 <= 0.6)%Q) by (unfold Qle; cbn; lia).
  assert (H1 : (0.6 < 1)%Q) by (unfold Qlt; cbn; lia).
  assert (Hz : calculateTotalValue createInitialRods = 0) by reflexivity.
  split; [exact Hset|]. split; [exact H0|]. split; [exact H1|]. split; [exact Hz|].
  destruct (startChallenge_dispatch "10:00" 0.6 1700000000000 0 (mount "") Hset H0 H1)
    as (s1 & ch & Hs & Hc & _ & _ & _ & _ & _ & Hidle & _).
  exists s1, ch. split; [exact Hs|]. split; [exact Hc|].
  assert (Hmd : isMulDiv (type ch) = true).
  { vm_compute in Hs. injection Hs as <-. cbn in Hc. injection Hc as <-. reflexivity. }
  split; [exact Hmd|]. apply (Hidle Hz). left. exact Hmd.
Defined.

Lemma speech_throttled_witness :
  let ks := [mkCall true true "七" 1000; mkCall true true "八" 1200;
             mkCall false true "九" 2000; mkCall true true "十" 1500] in
  speakerOk initialSpeaker
  /\ spaced (spoken (speakAll ks initialSpeaker))
  /\ spoken (speakAll ks initialSpeaker) = [(1000, "七"); (1500, "十")].
Proof.
  intros ks.
  assert (Hok : speakerOk initialSpeaker) by (split; [exact I | discriminate]).
  split; [exact Hok|].
  split; [apply (proj1 (proj1 (speech_throttled ks initialSpeaker Hok))) | reflexivity].
Defined.


Lemma badge_shows_verdict_witness :
  exists c,
    run solveMul10 (mount "") = Some c
    /\ feedbackMsg (state c) = msgCorrect /\ badgeIsGreen (state c) = true.
Proof.
  destruct (run solveMul10 (mount "")) as [c|] eqn:Hrun; [|discriminate Hrun].
  exists c. split; [reflexivity|].
  destruct (badge_shows_verdict solveMul10 "" c Hrun) as (_ & Hg & _).
  assert (Hf : feedbackMsg (state c) = msgCorrect)
    by (vm_compute in Hrun; injection Hrun as <-; reflexivity).
  split; [exact Hf | apply Hg, Hf].
Defined.

